(** * Order totals, coupons and status transitions of the Kastoma API

    A shallow embedding of the business rules of the [orders] app
    ([orders/models.py], [orders/utils.py], [orders/serializers.py]):
    coupon validity and discounting, shipping and tax helpers, the
    checkout path [OrderCreateSerializer.create], [Order.calculate_totals]
    and the status-transition validator. *)

From Stdlib Require Import ZArith QArith Qround Qabs Qpower Qminmax.
From Stdlib Require Import Lia Lqa Bool List.
From stdpp Require Import base option strings gmap.

Local Open Scope Z_scope.

(** ** Python's [decimal.Decimal]

    A finite [Decimal] is a signed coefficient and an exponent; it denotes
    [coef * 10 ^ exp].  [Decimal('5.99')] is [D 599 (-2)]; the sign lives in
    the coefficient, so the two zeros [0] and [-0] are one.  The operations
    below follow [decimal.py] for operands that stay inside the context
    precision (28 significant digits, far above the
    [DecimalField(max_digits=10, decimal_places=2)] columns of the models),
    where addition, multiplication and division by [100] are exact. *)
Module Decimal.

Record t : Set := D { coef : Z; exp : Z }.

(** [Decimal(n)] for a Python [int]. *)
Definition of_int (n : Z) : t := D n 0.

(** Truth value: [bool(d)] is false exactly for zero. *)
Definition truthy (d : t) : bool := negb (coef d =? 0).

(** The coefficient of [d] re-expressed at a smaller exponent [e]. *)
Definition align (d : t) (e : Z) : Z := coef d * 10 ^ (exp d - e).

(** Comparison is by numerical value, whatever the exponents. *)
Definition cmp (a b : t) : comparison :=
  let e := Z.min (exp a) (exp b) in align a e ?= align b e.

Definition ltb (a b : t) : bool :=
  match cmp a b with Lt => true | _ => false end.
Definition leb (a b : t) : bool :=
  match cmp a b with Gt => false | _ => true end.
Definition gtb (a b : t) : bool := ltb b a.
Definition geb (a b : t) : bool := leb b a.

(** [a + b] and [a - b]: the result carries the smaller exponent. *)
Definition add (a b : t) : t :=
  let e := Z.min (exp a) (exp b) in D (align a e + align b e) e.
Definition sub (a b : t) : t :=
  let e := Z.min (exp a) (exp b) in D (align a e - align b e) e.

(** [a * b]: coefficients multiply, exponents add. *)
Definition mul (a b : t) : t := D (coef a * coef b) (exp a + exp b).

(** [a / Decimal('100')] (also [a / 100]): the quotient is exact; trailing
    zeros are removed only while the exponent is below the ideal exponent
    [exp a - 0]. *)
Definition div100 (a : t) : t :=
  if coef a mod 100 =? 0 then D (coef a / 100) (exp a)
  else if coef a mod 10 =? 0 then D (coef a / 10) (exp a - 1)
  else D (coef a) (exp a - 2).

(** [d.quantize(q, rounding=ROUND_HALF_UP)]: [d] at the exponent of [q];
    discarded digits worth at least half a unit round the magnitude up
    (ties go away from zero). *)
Definition quantize_ROUND_HALF_UP (d q : t) : t :=
  let e := exp q in
  if e <=? exp d then D (align d e) e
  else
    let p := 10 ^ (e - exp d) in
    let m := Z.abs (coef d) in
    let n := if p <=? 2 * (m mod p) then m / p + 1 else m / p in
    D (Z.sgn (coef d) * n) e.

(** The builtin [min(x, y)]: [y] when [y < x], otherwise the first
    argument. *)
Definition min (x y : t) : t := if ltb y x then y else x.

(** The rational number a [Decimal] denotes. *)
Definition value (d : t) : Q := (inject_Z (coef d) * (10 # 1) ^ exp d)%Q.

End Decimal.

Abbreviation Decimal := Decimal.t.
Abbreviation D := Decimal.D.

Declare Scope dec_scope.
Delimit Scope dec_scope with dec.
Bind Scope dec_scope with Decimal.t.
Infix "+" := Decimal.add : dec_scope.
Infix "-" := Decimal.sub : dec_scope.
Infix "*" := Decimal.mul : dec_scope.
Infix "<?" := Decimal.ltb : dec_scope.
Infix "<=?" := Decimal.leb : dec_scope.
Infix ">?" := Decimal.gtb : dec_scope.
Infix ">=?" := Decimal.geb : dec_scope.

Local Open Scope string_scope.
Local Open Scope Z_scope.

(** ** Outcomes of fallible code *)

(** The exceptions the modelled code raises. *)
Inductive Exception : Set :=
  | ValidationError (detail : string)
  | DoesNotExist (model : string).

Inductive Result (A : Type) : Type :=
  | Ok (a : A)
  | Raise (e : Exception).
Arguments Ok {A} a.
Arguments Raise {A} e.

(** ** [orders/utils.py] *)

(** [str.lower()] on one character.  Only [A]-[Z] change; no character
    outside ASCII lower-cases to a letter used by the keys of
    [shipping_rates]. *)
Definition lower_ascii (c : Ascii.ascii) : Ascii.ascii :=
  let n := Ascii.N_of_ascii c in
  if ((65 <=? n) && (n <=? 90))%N then Ascii.ascii_of_N (n + 32) else c.

Fixpoint lower (s : string) : string :=
  match s with
  | EmptyString => EmptyString
  | String c s' => String (lower_ascii c) (lower s')
  end.

(** [calculate_tax(amount, tax_rate)].  Both arguments are [Decimal]s, so
    the two [isinstance] coercions leave them as they are. *)
Definition calculate_tax (amount tax_rate : Decimal) : Decimal :=
  let tax_amount := (amount * Decimal.div100 tax_rate)%dec in
  Decimal.quantize_ROUND_HALF_UP tax_amount (D 1 (-2)).

Definition FREE_SHIPPING_THRESHOLD : Decimal := D 10000 (-2).

Definition shipping_rates : gmap string Decimal :=
  <["standard" := D 599 (-2)]>
  (<["express" := D 1299 (-2)]>
  (<["overnight" := D 2499 (-2)]>
  (<["international" := D 1599 (-2)]> ∅))).

(** [get_shipping_cost(subtotal, shipping_method)]. *)
Definition get_shipping_cost (subtotal : Decimal) (shipping_method : string)
  : Decimal :=
  if (subtotal >=? FREE_SHIPPING_THRESHOLD)%dec then D 0 (-2)
  else default (D 599 (-2)) (shipping_rates !! lower shipping_method).

(** ** Methods and the ORM

    A method of a model instance reads, and may assign, the fields of
    [self]: it maps the instance to a result and the instance afterwards. *)
Definition Method (Self A : Type) : Type := Self -> A * Self.

Definition mret {Self A} (a : A) : Method Self A := fun self => (a, self).
Definition mbind {Self A B} (m : Method Self A) (k : A -> Method Self B)
  : Method Self B :=
  fun self => let '(a, self') := m self in k a self'.
Definition attr {Self A} (field : Self -> A) : Method Self A :=
  fun self => (field self, self).

Notation "'let*' x ':=' m 'in' k" := (mbind m (fun x => k))
  (at level 10, x name, m at level 100, k at level 200).

(** Primary keys are [uuid.uuid4()] values; instants are [datetime]s on the
    UTC time line, counted in microseconds. *)
Definition UUID : Set := N.
Bind Scope N_scope with UUID.
Definition datetime : Set := Z.

(** *** [products.models] (the fields the checkout reads) *)
Record Product : Set := mkProduct {
  product_price : Decimal;
  product_sku : string;
  product_name : string
}.

Record ProductVariant : Set := mkProductVariant {
  variant_product : UUID;
  variant_price : option Decimal;
  variant_sku : string
}.

(** *** [orders.models] *)
Record Coupon : Set := mkCoupon {
  code : string;
  discount_type : string;
  discount_value : Decimal;
  minimum_order_amount : option Decimal;
  maximum_discount_amount : option Decimal;
  usage_limit : option Z;
  usage_count : Z;
  is_active : bool;
  valid_from : datetime;
  valid_until : option datetime
}.

Definition set_usage_count (n : Z) (c : Coupon) : Coupon :=
  mkCoupon (code c) (discount_type c) (discount_value c)
    (minimum_order_amount c) (maximum_discount_amount c) (usage_limit c)
    n (is_active c) (valid_from c) (valid_until c).

Record Order : Set := mkOrder {
  order_id : UUID;
  order_user : option UUID;
  status : string;
  subtotal : Decimal;
  shipping_cost : Decimal;
  tax_amount : Decimal;
  discount_amount : Decimal;
  total_amount : Decimal;
  shipping_method : option string
}.

Definition set_status (s : string) (o : Order) : Order :=
  mkOrder (order_id o) (order_user o) s (subtotal o) (shipping_cost o)
    (tax_amount o) (discount_amount o) (total_amount o) (shipping_method o).
Definition set_subtotal (d : Decimal) (o : Order) : Order :=
  mkOrder (order_id o) (order_user o) (status o) d (shipping_cost o)
    (tax_amount o) (discount_amount o) (total_amount o) (shipping_method o).
Definition set_discount_amount (d : Decimal) (o : Order) : Order :=
  mkOrder (order_id o) (order_user o) (status o) (subtotal o)
    (shipping_cost o) (tax_amount o) d (total_amount o) (shipping_method o).
Definition set_total_amount (d : Decimal) (o : Order) : Order :=
  mkOrder (order_id o) (order_user o) (status o) (subtotal o)
    (shipping_cost o) (tax_amount o) (discount_amount o) d (shipping_method o).

Record OrderItem : Set := mkOrderItem {
  item_order : UUID;
  item_product : UUID;
  item_variant : option UUID;
  unit_price : Decimal;
  quantity : Z;
  total_price : Decimal
}.

Record CouponUsage : Set := mkCouponUsage {
  usage_coupon : string;
  usage_order : UUID;
  usage_user : option UUID;
  usage_discount_amount : Decimal
}.

(** [Coupon.is_valid(self)]; [now] is the reading of [timezone.now()].
    [x and y] tests the truth value of [x] first: [None] and [0] are
    false, a [datetime] is always true. *)
Definition is_valid (now : datetime) : Method Coupon bool :=
  let* active := attr is_active in
  if negb active then mret false else
  let* from := attr valid_from in
  if from >? now then mret false else
  let* until := attr valid_until in
  if match until with Some u => u <? now | None => false end
  then mret false else
  let* limit := attr usage_limit in
  let* count := attr usage_count in
  if match limit with
     | Some l => negb (l =? 0) && (count >=? l)
     | None => false
     end
  then mret false else
  mret true.

(** [Coupon.calculate_discount(self, order_amount)]. *)
Definition calculate_discount (now : datetime) (order_amount : Decimal)
  : Method Coupon Decimal :=
  let* valid := is_valid now in
  if negb valid then mret (D 0 (-2)) else
  let* minimum := attr minimum_order_amount in
  if match minimum with
     | Some m => Decimal.truthy m && (order_amount <? m)%dec
     | None => false
     end
  then mret (D 0 (-2)) else
  let* kind := attr discount_type in
  let* value := attr discount_value in
  let discount :=
    if String.eqb kind "percentage"
    then (order_amount * Decimal.div100 value)%dec
    else value in
  let* maximum := attr maximum_discount_amount in
  let discount :=
    match maximum with
    | Some m => if Decimal.truthy m then Decimal.min discount m else discount
    | None => discount
    end in
  mret (Decimal.min discount order_amount).

(** [OrderItem.save(self)] recomputes the line total. *)
Definition OrderItem_save (it : OrderItem) : OrderItem :=
  mkOrderItem (item_order it) (item_product it) (item_variant it)
    (unit_price it) (quantity it)
    (unit_price it * Decimal.of_int (quantity it))%dec.

(** [sum(...)] over decimals, starting from the [int] [0]. *)
Definition sum (l : list Decimal) : Decimal :=
  fold_left Decimal.add l (Decimal.of_int 0).

(** [Order.calculate_totals(self)]; [items] is [self.items.all()]. *)
Definition calculate_totals (items : list OrderItem) : Method Order unit :=
  fun self =>
    let self := set_subtotal (sum (map total_price items)) self in
    let self :=
      set_total_amount
        (subtotal self + shipping_cost self + tax_amount self
         - discount_amount self)%dec self in
    (tt, self).

(** *** The database behind the ORM managers *)
Record Db : Type := mkDb {
  products : gmap UUID Product;
  variants : gmap UUID ProductVariant;
  coupons : gmap string Coupon;
  orders : gmap UUID Order;
  order_items : list OrderItem;
  coupon_usages : list CouponUsage
}.

(** Code that talks to the ORM: it may raise, and the rows written before
    an exception stay written (no [transaction.atomic] around a request). *)
Definition ORM (A : Type) : Type := Db -> Result A * Db.

Definition ret {A} (a : A) : ORM A := fun db => (Ok a, db).
Definition raise {A} (e : Exception) : ORM A := fun db => (Raise e, db).
Definition bind {A B} (m : ORM A) (k : A -> ORM B) : ORM B :=
  fun db =>
    match m db with
    | (Ok a, db') => k a db'
    | (Raise e, db') => (Raise e, db')
    end.

Notation "'do' x <- m ; k" := (bind m (fun x => k))
  (at level 10, x name, m at level 100, k at level 200).

(** [try: body  except Model.DoesNotExist: handler]. *)
Definition except_DoesNotExist {A} (model : string) (body handler : ORM A)
  : ORM A :=
  fun db =>
    match body db with
    | (Raise (DoesNotExist m), db') =>
        if String.eqb m model then handler db'
        else (Raise (DoesNotExist m), db')
    | r => r
    end.

Definition Product_objects_get (id : UUID) : ORM Product :=
  fun db =>
    match products db !! id with
    | Some p => (Ok p, db)
    | None => (Raise (DoesNotExist "Product"), db)
    end.

(** [ProductVariant.objects.get(id=id, product=product)]. *)
Definition ProductVariant_objects_get (id product : UUID)
  : ORM ProductVariant :=
  fun db =>
    match variants db !! id with
    | Some v =>
        if (variant_product v =? product)%N then (Ok v, db)
        else (Raise (DoesNotExist "ProductVariant"), db)
    | None => (Raise (DoesNotExist "ProductVariant"), db)
    end.

(** [ProductVariant.effective_price], which follows [self.product]. *)
Definition effective_price (v : ProductVariant) : ORM Decimal :=
  match variant_price v with
  | Some p => ret p
  | None =>
      do p <- Product_objects_get (variant_product v) ; ret (product_price p)
  end.

(** [Coupon.objects.get(code=code)]; [code] is a unique column. *)
Definition Coupon_objects_get (k : string) : ORM Coupon :=
  fun db =>
    match coupons db !! k with
    | Some c => (Ok c, db)
    | None => (Raise (DoesNotExist "Coupon"), db)
    end.

Definition Coupon_save (c : Coupon) : ORM unit :=
  fun db =>
    (Ok tt,
     mkDb (products db) (variants db) (<[code c := c]> (coupons db))
       (orders db) (order_items db) (coupon_usages db)).

Definition Order_save (o : Order) : ORM unit :=
  fun db =>
    (Ok tt,
     mkDb (products db) (variants db) (coupons db)
       (<[order_id o := o]> (orders db)) (order_items db) (coupon_usages db)).

Definition OrderItem_objects_create (it : OrderItem) : ORM OrderItem :=
  fun db =>
    let it := OrderItem_save it in
    (Ok it,
     mkDb (products db) (variants db) (coupons db) (orders db)
       (order_items db ++ [it]) (coupon_usages db)).

Definition CouponUsage_objects_create (u : CouponUsage) : ORM CouponUsage :=
  fun db =>
    (Ok u,
     mkDb (products db) (variants db) (coupons db) (orders db)
       (order_items db) (coupon_usages db ++ [u])).

(** ** [orders/serializers.py] *)

(** One entry of the validated [items] list. *)
Record ItemData : Set := mkItemData {
  product_id : UUID;
  variant_id : option UUID;
  item_quantity : Z
}.

(** The validated data [OrderCreateSerializer.create] receives (the
    customer and address fields are copied to the order untouched and are
    left out); [user] is added by [serializer.save(user=...)]. *)
Record ValidatedData : Set := mkValidatedData {
  items : list ItemData;
  coupon_code : option string;
  data_shipping_method : option string;
  data_user : option UUID
}.

(** [OrderItemSerializer.validate_quantity]. *)
Definition validate_quantity (value : Z) : Result Z :=
  if value <=? 0 then Raise (ValidationError "Quantity must be greater than 0.")
  else Ok value.

(** [Order.objects.create] on the validated data: the money columns take their
    default [Decimal('0.00')], the status its default ['pending']; [id] is
    the primary key drawn for the row. *)
Definition Order_objects_create (id : UUID) (data : ValidatedData)
  : ORM Order :=
  let order :=
    mkOrder id (data_user data) "pending" (D 0 (-2)) (D 0 (-2)) (D 0 (-2))
      (D 0 (-2)) (D 0 (-2)) (data_shipping_method data) in
  do _ <- Order_save order ; ret order.

(** The [for item_data in items_data] loop of [create]; the accumulator
    is the running [subtotal]. *)
Fixpoint create_items (order : Order) (items_data : list ItemData)
    (subtotal : Decimal) : ORM Decimal :=
  match items_data with
  | [] => ret subtotal
  | item_data :: rest =>
      let quantity := item_quantity item_data in
      do product <- Product_objects_get (product_id item_data) ;
      do unit_price <-
        match variant_id item_data with
        | Some vid =>
            except_DoesNotExist "ProductVariant"
              (do variant <-
                 ProductVariant_objects_get vid (product_id item_data) ;
               effective_price variant)
              (raise (ValidationError "Product variant does not exist."))
        | None => ret (product_price product)
        end ;
      let total_price := (unit_price * Decimal.of_int quantity)%dec in
      let subtotal := (subtotal + total_price)%dec in
      do _ <-
        OrderItem_objects_create
          (mkOrderItem (order_id order) (product_id item_data)
             (variant_id item_data) unit_price quantity total_price) ;
      create_items order rest subtotal
  end.

(** [OrderCreateSerializer.create(self, validated_data)]; [subtotal'] is
    the local variable [subtotal]. *)
Definition create (now : datetime) (id : UUID) (validated_data : ValidatedData)
  : ORM Order :=
  let items_data := items validated_data in
  do order <- Order_objects_create id validated_data ;
  do subtotal' <- create_items order items_data (D 0 (-2)) ;
  let order := set_subtotal subtotal' order in
  do order <-
    match coupon_code validated_data with
    | Some (String _ _ as k) =>
        except_DoesNotExist "Coupon"
          (do coupon <- Coupon_objects_get k ;
           let '(discount, coupon) := calculate_discount now subtotal' coupon in
           if (discount >? Decimal.of_int 0)%dec then
             let order := set_discount_amount discount order in
             let coupon := set_usage_count (usage_count coupon + 1) coupon in
             do _ <- Coupon_save coupon ;
             do _ <-
               CouponUsage_objects_create
                 (mkCouponUsage (code coupon) (order_id order)
                    (order_user order) discount) ;
             ret order
           else ret order)
          (ret order)
    | _ => ret order
    end ;
  let order :=
    set_total_amount
      (subtotal order + shipping_cost order + tax_amount order
       - discount_amount order)%dec order in
  do _ <- Order_save order ;
  ret order.

(** [OrderStatusUpdateSerializer.validate_status]. *)
Definition valid_transitions : gmap string (list string) :=
  <["pending" := ["confirmed"; "cancelled"]]>
  (<["confirmed" := ["processing"; "cancelled"]]>
  (<["processing" := ["shipped"; "cancelled"]]>
  (<["shipped" := ["delivered"]]>
  (<["delivered" := ["refunded"]]>
  (<["cancelled" := []]>
  (<["refunded" := []]> ∅)))))).

Definition validate_status (instance : option Order) (value : string)
  : Result string :=
  match instance with
  | Some inst =>
      let current_status := status inst in
      if negb (existsb (String.eqb value)
                 (default [] (valid_transitions !! current_status)))
      then Raise (ValidationError
                    ("Cannot change status from " ++ current_status ++ " to "
                     ++ value ++ "."))
      else Ok value
  | None => Ok value
  end.

(** ** The specification's vocabulary *)

(** Rounding a rational to two decimal places, half up: the magnitude is
    rounded to the nearest hundredth and a tie goes to the larger
    magnitude. *)
Definition round_half_up_2dp (x : Q) : Q :=
  let n := Qfloor (Qabs x * 100 + (1 # 2)) in
  if Qle_bool 0 x then inject_Z n / 100 else - (inject_Z n / 100).

(** The transition table of the order life cycle, as the specification
    lists it. *)
Inductive Transition : string -> string -> Prop :=
  | pending_confirmed : Transition "pending" "confirmed"
  | pending_cancelled : Transition "pending" "cancelled"
  | confirmed_processing : Transition "confirmed" "processing"
  | confirmed_cancelled : Transition "confirmed" "cancelled"
  | processing_shipped : Transition "processing" "shipped"
  | processing_cancelled : Transition "processing" "cancelled"
  | shipped_delivered : Transition "shipped" "delivered"
  | delivered_refunded : Transition "delivered" "refunded".

(** [coupon_is_valid(coupon, now)] as the specification words it: every
    limit that is set is enforced. *)
Definition coupon_is_valid_spec (c : Coupon) (now : datetime) : bool :=
  negb (negb (is_active c)
        || (now <? valid_from c)
        || match valid_until c with Some u => now >? u | None => false end
        || match usage_limit c with
           | Some l => usage_count c >=? l
           | None => false
           end).

(** Steps 3 to 5 of the specification's [calculate_discount], on the
    denoted numbers: the raw discount, the cap when the field is set, the
    cap at the order amount, and the final rounding. *)
Definition calculate_discount_spec (c : Coupon) (order_amount : Q) : Q :=
  let raw :=
    if String.eqb (discount_type c) "percentage"
    then (order_amount * (Decimal.value (discount_value c) / 100))%Q
    else Decimal.value (discount_value c) in
  let raw :=
    match maximum_discount_amount c with
    | Some m => Qmin raw (Decimal.value m)
    | None => raw
    end in
  round_half_up_2dp (Qmin raw order_amount).

(** Assignments to the optional coupon fields. *)
Definition set_usage_limit (l : option Z) (c : Coupon) : Coupon :=
  mkCoupon (code c) (discount_type c) (discount_value c)
    (minimum_order_amount c) (maximum_discount_amount c) l
    (usage_count c) (is_active c) (valid_from c) (valid_until c).
Definition set_maximum_discount_amount (m : option Decimal) (c : Coupon)
  : Coupon :=
  mkCoupon (code c) (discount_type c) (discount_value c)
    (minimum_order_amount c) m (usage_limit c)
    (usage_count c) (is_active c) (valid_from c) (valid_until c).
Definition set_minimum_order_amount (m : option Decimal) (c : Coupon)
  : Coupon :=
  mkCoupon (code c) (discount_type c) (discount_value c)
    m (maximum_discount_amount c) (usage_limit c)
    (usage_count c) (is_active c) (valid_from c) (valid_until c).

(** ** A functional reading of the checkout

    What [create] computes, written as plain functions of the database and
    the validated data; [create_priced] below proves that [create] returns
    exactly this. *)

(** The unit price the checkout charges for an item: the price of the
    product, or of the named variant of that product when the variant
    carries a price of its own. *)
Definition unit_price_in (ps : gmap UUID Product)
    (vs : gmap UUID ProductVariant) (item : ItemData) : option Decimal :=
  match ps !! product_id item with
  | None => None
  | Some p =>
      match variant_id item with
      | None => Some (product_price p)
      | Some vid =>
          match vs !! vid with
          | Some v =>
              if (variant_product v =? product_id item)%N
              then Some (default (product_price p) (variant_price v))
              else None
          | None => None
          end
      end
  end.

(** The running subtotal after a list of priced items. *)
Definition subtotal_of (acc : Decimal) (priced : list (ItemData * Decimal))
  : Decimal :=
  fold_left
    (fun s ip => (s + snd ip * Decimal.of_int (item_quantity (fst ip)))%dec)
    priced acc.

(** The order lines the checkout writes for a list of priced items. *)
Definition new_order_items (order : UUID) (priced : list (ItemData * Decimal))
  : list OrderItem :=
  map (fun ip =>
         mkOrderItem order (product_id (fst ip)) (variant_id (fst ip))
           (snd ip) (item_quantity (fst ip))
           (snd ip * Decimal.of_int (item_quantity (fst ip)))%dec)
    priced.

Definition add_order_items (db : Db) (l : list OrderItem) : Db :=
  mkDb (products db) (variants db) (coupons db) (orders db)
    (order_items db ++ l) (coupon_usages db).

(** Stored prices are not negative (the columns carry
    [MinValueValidator(0)]). *)
Definition prices_nonneg (db : Db) : Prop :=
  (forall i p, products db !! i = Some p ->
               (0 <= Decimal.value (product_price p))%Q)
  /\ (forall i v x, variants db !! i = Some v -> variant_price v = Some x ->
                    (0 <= Decimal.value x)%Q).

(** The coupon a checkout applies and the discount it grants: the coupon
    stored under a non-empty [coupon_code], when its discount on the
    subtotal is positive. *)
Definition applied_coupon (now : datetime) (cs : gmap string Coupon)
    (data : ValidatedData) (sub : Decimal) : option (Coupon * Decimal) :=
  match coupon_code data with
  | Some (String _ _ as k) =>
      match cs !! k with
      | Some c =>
          let d := fst (calculate_discount now sub c) in
          if (d >? Decimal.of_int 0)%dec then Some (c, d) else None
      | None => None
      end
  | _ => None
  end.

(** The order and the database a checkout of priced items ends with. *)
Definition checkout (now : datetime) (id : UUID) (data : ValidatedData)
    (db : Db) (prices : list Decimal) : Order * Db :=
  let priced := zip (items data) prices in
  let sub := subtotal_of (D 0 (-2)) priced in
  let applied := applied_coupon now (coupons db) data sub in
  let order0 :=
    mkOrder id (data_user data) "pending" (D 0 (-2)) (D 0 (-2)) (D 0 (-2))
      (D 0 (-2)) (D 0 (-2)) (data_shipping_method data) in
  let disc := from_option snd (D 0 (-2)) applied in
  let order :=
    mkOrder id (data_user data) "pending" sub (D 0 (-2)) (D 0 (-2)) disc
      (sub + D 0 (-2) + D 0 (-2) - disc)%dec (data_shipping_method data) in
  (order,
   mkDb (products db) (variants db)
     match applied with
     | Some (c, _) =>
         <[code c := set_usage_count (usage_count c + 1) c]> (coupons db)
     | None => coupons db
     end
     (<[id := order]> (<[id := order0]> (orders db)))
     (order_items db ++ new_order_items id priced)
     match applied with
     | Some (c, d) =>
         coupon_usages db ++ [mkCouponUsage (code c) id (data_user data) d]
     | None => coupon_usages db
     end).

(** The [code] column is unique and the coupon table is indexed by it. *)
Definition coupons_by_code (db : Db) : Prop :=
  forall k c, coupons db !! k = Some c -> code c = k.

(** The sum of [unit_price * quantity] over priced items, as a number. *)
Definition line_sum (priced : list (ItemData * Decimal)) : Q :=
  fold_right
    (fun ip s =>
       (Decimal.value (snd ip) * inject_Z (item_quantity (fst ip)) + s)%Q)
    0%Q priced.

(** ** Sample data *)

(** Sample coupons: ten per cent off with a usage limit of zero, ten per
    cent off without limits, and twenty per cent off with a maximum
    discount of [0.00]. *)
Definition zero_limit_coupon : Coupon :=
  mkCoupon "TEN" "percentage" (D 1000 (-2)) None None (Some 0) 0 true 0 None.
Definition ten_percent_coupon : Coupon :=
  mkCoupon "SAVE10" "percentage" (D 1000 (-2)) None None None 0 true 0 None.
Definition zero_cap_coupon : Coupon :=
  mkCoupon "TWENTY" "percentage" (D 2000 (-2)) None (Some (D 0 (-2))) None 0
    true 0 None.

(** A sample checkout: two units of a product priced [25.00], standard
    shipping, no coupon; and the same with the coupon [SAVE10]. *)
Definition sample_db : Db :=
  mkDb {[ 1%N := mkProduct (D 2500 (-2)) "SKU-1" "Widget" ]} ∅
    {[ "SAVE10" := ten_percent_coupon ]}
    ∅ [] [].
Definition sample_data : ValidatedData :=
  mkValidatedData [mkItemData 1 None 2] None (Some "standard") None.
Definition sample_data_coupon : ValidatedData :=
  mkValidatedData [mkItemData 1 None 2] (Some "SAVE10") (Some "standard") None.
Definition sample_lines : list OrderItem :=
  [mkOrderItem 7 1 None (D 2500 (-2)) 2 (D 5000 (-2))].
Definition sample_order : Order :=
  mkOrder 7 None "pending" (D 0 (-2)) (D 1000 (-2)) (D 500 (-2)) (D 250 (-2))
    (D 0 (-2)) (Some "standard").

(** ** Further parts of the orders app *)

(** [self.items.all()] of an order: the order lines that point to it. *)
Definition Order_items (db : Db) (o : Order) : list OrderItem :=
  filter (fun it => item_order it = order_id o) (order_items db).

(** [Order.can_be_cancelled(self)]. *)
Definition can_be_cancelled : Method Order bool :=
  let* s := attr status in
  mret (existsb (String.eqb s) ["pending"; "confirmed"]).

(** *** [orders/views.py]: the status actions of [OrderViewSet] *)

(** An order row with the columns the status actions write besides
    [status]. *)
Record OrderRow : Set := mkOrderRow {
  row_order : Order;
  internal_notes : option string;
  confirmed_at : option datetime;
  shipped_at : option datetime;
  delivered_at : option datetime
}.

(** What a view ends with: a response with its status code, or an
    uncaught [KeyError]. *)
Inductive ViewOutcome : Set :=
  | Response (status_code : Z)
  | RaiseKeyError (key : string).

(** The values of [OrderStatusUpdateSerializer.STATUS_CHOICES]. *)
Definition STATUS_CHOICES : list string :=
  ["pending"; "confirmed"; "processing"; "shipped"; "delivered"; "cancelled";
   "refunded"].

(** The request data of a status update after field parsing; with
    [partial=True] the [status] field may be missing. *)
Record StatusUpdateData : Set := mkStatusUpdateData {
  update_status_value : option string;
  update_notes : option string
}.

(** [serializer.is_valid()] of [OrderStatusUpdateSerializer(order, data,
    partial=True)]: the choice field, then [validate_status]. *)
Definition status_update_is_valid (order : Order) (data : StatusUpdateData)
  : bool :=
  match update_status_value data with
  | Some value =>
      existsb (String.eqb value) STATUS_CHOICES
      && match validate_status (Some order) value with
         | Ok _ => true
         | Raise _ => false
         end
  | None => true
  end.

(** [OrderViewSet.update_status]; [now] is the reading of
    [timezone.now()]. *)
Definition update_status (now : datetime) (data : StatusUpdateData)
  : Method OrderRow ViewOutcome :=
  fun row =>
    if status_update_is_valid (row_order row) data then
      match update_status_value data with
      | None => (RaiseKeyError "status", row)
      | Some new_status =>
          let notes := default "" (update_notes data) in
          let order := set_status new_status (row_order row) in
          let internal_notes :=
            if negb (String.eqb notes "") then Some notes
            else internal_notes row in
          let row :=
            if String.eqb new_status "confirmed"
               && negb (bool_decide (is_Some (confirmed_at row)))
            then mkOrderRow order internal_notes (Some now) (shipped_at row)
                   (delivered_at row)
            else if String.eqb new_status "shipped"
                    && negb (bool_decide (is_Some (shipped_at row)))
            then mkOrderRow order internal_notes (confirmed_at row) (Some now)
                   (delivered_at row)
            else if String.eqb new_status "delivered"
                    && negb (bool_decide (is_Some (delivered_at row)))
            then mkOrderRow order internal_notes (confirmed_at row)
                   (shipped_at row) (Some now)
            else mkOrderRow order internal_notes (confirmed_at row)
                   (shipped_at row) (delivered_at row) in
          (Response 200, row)
      end
    else (Response 400, row).

(** [OrderViewSet.cancel]. *)
Definition cancel : Method OrderRow ViewOutcome :=
  fun row =>
    if negb (fst (can_be_cancelled (row_order row))) then (Response 400, row)
    else
      (Response 200,
       mkOrderRow (set_status "cancelled" (row_order row)) (internal_notes row)
         (confirmed_at row) (shipped_at row) (delivered_at row)).

(** How far along its life cycle a status is. *)
Definition status_rank (s : string) : nat :=
  if String.eqb s "pending" then 0
  else if String.eqb s "confirmed" then 1
  else if String.eqb s "processing" then 2
  else if String.eqb s "shipped" then 3
  else if String.eqb s "delivered" then 4
  else 5.

(** A run of status updates, each applied to the row the one before left;
    the run stops at the first update that is not answered with [200]. *)
Fixpoint update_status_run (now : datetime) (updates : list StatusUpdateData)
    (row : OrderRow) : option OrderRow :=
  match updates with
  | [] => Some row
  | data :: rest =>
      match update_status now data row with
      | (Response 200, row') => update_status_run now rest row'
      | _ => None
      end
  end.

(** The time stamps a status implies: past [confirmed] the order has a
    confirmation time, past [shipped] a shipping time, past [delivered] a
    delivery time. *)
Definition stamped (row : OrderRow) : Prop :=
  let s := status (row_order row) in
  (In s ["confirmed"; "processing"; "shipped"; "delivered"; "refunded"] ->
   is_Some (confirmed_at row))
  /\ (In s ["shipped"; "delivered"; "refunded"] -> is_Some (shipped_at row))
  /\ (In s ["delivered"; "refunded"] -> is_Some (delivered_at row)).

(** *** [orders/utils.py]: business days *)

(** A [datetime.date] is its proleptic Gregorian ordinal
    ([date.toordinal()]): day [1] is Monday 0001-01-01 and [date.max] is
    day [3652059]; adding a [timedelta] beyond it raises
    [OverflowError]. *)
Definition date : Set := Z.
Definition MAXORDINAL : Z := 3652059.

(** [date.weekday()]: Monday is [0], Sunday is [6]. *)
Definition weekday (d : date) : Z := (d + 6) mod 7.

Inductive DateResult : Set :=
  | ReturnDate (d : date)
  | OverflowError.

(** The [while days_added < business_days] loop of
    [calculate_business_days]; [fuel] bounds the number of passes, and
    [None] means that it ran out. *)
Fixpoint business_days_loop (fuel : nat) (business_days : Z)
    (current_date : date) (days_added : Z) : option DateResult :=
  match fuel with
  | O => None
  | S fuel =>
      if days_added <? business_days then
        let current_date := current_date + 1 in
        if MAXORDINAL <? current_date then Some OverflowError
        else if weekday current_date <? 5
        then business_days_loop fuel business_days current_date
               (days_added + 1)
        else business_days_loop fuel business_days current_date days_added
      else Some (ReturnDate current_date)
  end.

(** [calculate_business_days(start_date, business_days)]. *)
Definition calculate_business_days (fuel : nat) (start_date : date)
    (business_days : Z) : option DateResult :=
  business_days_loop fuel business_days start_date 0.

(** The number of business days (Monday to Friday) among the [n] days
    that follow day [d]. *)
Definition business_days_after (d : date) (n : nat) : nat :=
  length (filter (fun k => weekday k < 5) (seqZ (d + 1) (Z.of_nat n))).

(** [OrderCreateSerializer.validate_items]. *)
Definition validate_items (value : list ItemData) : Result (list ItemData) :=
  match value with
  | [] => Raise (ValidationError "Order must contain at least one item.")
  | _ :: _ => Ok value
  end.

(** *** [orders/models.py] and [orders/views.py]: the cart *)

(** A row of [CartItem]; [product] and [variant] are foreign keys. *)
Record CartItem : Set := mkCartItem {
  cart_product : UUID;
  cart_variant : option UUID;
  cart_quantity : Z
}.

(** Following the foreign key [self.variant]. *)
Definition CartItem_variant (id : UUID) : ORM ProductVariant :=
  fun db =>
    match variants db !! id with
    | Some v => (Ok v, db)
    | None => (Raise (DoesNotExist "ProductVariant"), db)
    end.

(** [CartItem.get_price(self)]. *)
Definition get_price (self : CartItem) : ORM Decimal :=
  match cart_variant self with
  | Some vid => do variant <- CartItem_variant vid ; effective_price variant
  | None =>
      do product <- Product_objects_get (cart_product self) ;
      ret (product_price product)
  end.

(** [Cart.total_amount]: [sum(item.quantity * item.get_price() for item in
    self.items.all())]; [items] is [self.items.all()] and [acc] the
    running sum, which starts from the [int] [0]. *)
Fixpoint Cart_total_amount_from (items : list CartItem) (acc : Decimal)
  : ORM Decimal :=
  match items with
  | [] => ret acc
  | item :: rest =>
      do price <- get_price item ;
      Cart_total_amount_from rest
        (acc + Decimal.of_int (cart_quantity item) * price)%dec
  end.

Definition Cart_total_amount (items : list CartItem) : ORM Decimal :=
  Cart_total_amount_from items (Decimal.of_int 0).

(** [Cart.item_count] and [Order.item_count]: [sum(item.quantity for item
    in self.items.all())]. *)
Definition Cart_item_count (items : list CartItem) : Z :=
  fold_left Z.add (map cart_quantity items) 0.
Definition Order_item_count (items : list OrderItem) : Z :=
  fold_left Z.add (map quantity items) 0.

(** The [items] that [CartViewSet.checkout] builds from [cart.items.all()]
    for [OrderCreateSerializer]; a UUID written with [str] is read back by
    the serializer's [UUIDField] as the same UUID. *)
Definition checkout_items (items : list CartItem) : list ItemData :=
  map (fun item =>
         mkItemData (cart_product item) (cart_variant item)
           (cart_quantity item))
    items.

(** *** [orders/utils.py]: phone and card numbers

    In these helpers a [str] is the list of its characters, code points
    below 256; the decimal digits among them, which [\d] matches, are
    ['0'] to ['9']. *)
Definition str : Set := list Ascii.ascii.

(** A string literal. *)
Definition lit (s : string) : str := String.list_ascii_of_string s.

Definition isdigit (c : Ascii.ascii) : bool :=
  let n := Ascii.N_of_ascii c in (48 <=? n)%N && (n <=? 57)%N.

(** [re.sub(r'\D', '', s)]. *)
Definition sub_nondigits (s : str) : str := List.filter isdigit s.

(** The slices [s[i:j]], [s[i:]] and [s[-n:]] for [0 <= i <= j], [0 < n]. *)
Definition slice (i j : nat) (s : str) : str := take (j - i) (drop i s).
Definition slice_from (i : nat) (s : str) : str := drop i s.
Definition slice_last (n : nat) (s : str) : str := drop (length s - n) s.

(** [s.startswith(prefix)]. *)
Fixpoint startswith (s prefix : str) : bool :=
  match prefix, s with
  | [], _ => true
  | p :: prefix, c :: s => Ascii.eqb c p && startswith s prefix
  | _ :: _, [] => false
  end.

(** [format_phone_number(phone)]. *)
Definition format_phone_number (phone : str) : str :=
  let digits := sub_nondigits phone in
  if (length digits =? 10)%nat then
    (lit "(" ++ slice 0 3 digits ++ lit ") " ++ slice 3 6 digits ++ lit "-"
     ++ slice_from 6 digits)%list
  else if (length digits =? 11)%nat && startswith digits (lit "1") then
    (lit "+1 (" ++ slice 1 4 digits ++ lit ") " ++ slice 4 7 digits
     ++ lit "-" ++ slice_from 7 digits)%list
  else phone.

(** [mask_credit_card(card_number)]. *)
Definition mask_credit_card (card_number : str) : str :=
  let digits := sub_nondigits card_number in
  if (length digits <? 4)%nat then card_number
  else if (length digits =? 16)%nat then
    (lit "****-****-****-" ++ slice_last 4 digits)%list
  else if (length digits =? 15)%nat then
    (lit "****-****-***-" ++ slice_last 4 digits)%list
  else card_number.

(** The invariant of the usage counter: a limit that is set and not zero
    has not been exceeded. *)
Definition within_limit (c : Coupon) : Prop :=
  forall l, usage_limit c = Some l -> l <> 0 -> usage_count c <= l.

(** * Properties *)

(** ** What a [Decimal] denotes *)
Section DecimalFacts.

Local Open Scope Q_scope.
Import Decimal.

Local Abbreviation ten := (10 # 1).

Lemma ten_nonzero : ~ ten == 0.
Proof. discriminate. Qed.

Lemma pow10_pos (e : Z) : 0 < ten ^ e.
Proof. apply Qpower_0_lt. reflexivity. Qed.

Lemma inject_pow10 (k : Z) : (0 <= k)%Z -> inject_Z (10 ^ k) == ten ^ k.
Proof. intros Hk. now rewrite Zpower_Qpower. Qed.

Lemma value_align (d : Decimal) (e : Z) :
  (e <= exp d)%Z -> value d == inject_Z (align d e) * ten ^ e.
Proof.
  intros He. unfold value, align.
  rewrite inject_Z_mult, inject_pow10 by lia.
  rewrite <- Qmult_assoc, <- Qpower_plus by apply ten_nonzero.
  now replace (exp d - e + e)%Z with (exp d) by lia.
Qed.

Lemma Qcompare_scale (x y : Z) (p : Q) :
  0 < p -> (inject_Z x * p ?= inject_Z y * p) = (x ?= y)%Z.
Proof.
  intros Hp. destruct (Z.compare_spec x y) as [H|H|H].
  - subst. apply Qeq_alt. reflexivity.
  - apply Qlt_alt, Qmult_lt_compat_r; trivial. now rewrite <- Zlt_Qlt.
  - apply Qgt_alt, Qmult_lt_compat_r; trivial. now rewrite <- Zlt_Qlt.
Qed.

Lemma cmp_value (a b : Decimal) : cmp a b = (value a ?= value b).
Proof.
  unfold cmp.
  rewrite (Qcompare_comp _ _ (value_align a (Z.min (exp a) (exp b))
                                (Z.le_min_l _ _))
                         _ _ (value_align b (Z.min (exp a) (exp b))
                                (Z.le_min_r _ _))).
  symmetry. apply Qcompare_scale, pow10_pos.
Qed.

Lemma ltb_value (a b : Decimal) : ltb a b = true <-> value a < value b.
Proof.
  unfold ltb. rewrite cmp_value, Qlt_alt.
  destruct (value a ?= value b); intuition discriminate.
Qed.

Lemma ltb_false_value (a b : Decimal) : ltb a b = false <-> value b <= value a.
Proof.
  unfold ltb. rewrite cmp_value, Qge_alt.
  destruct (value a ?= value b); intuition (discriminate || congruence).
Qed.

Lemma leb_value (a b : Decimal) : leb a b = true <-> value a <= value b.
Proof.
  unfold leb. rewrite cmp_value, Qle_alt.
  destruct (value a ?= value b); intuition (discriminate || congruence).
Qed.

Lemma geb_value (a b : Decimal) : geb a b = true <-> value b <= value a.
Proof. apply leb_value. Qed.

Lemma gtb_value (a b : Decimal) : gtb a b = true <-> value b < value a.
Proof. apply ltb_value. Qed.

Lemma value_of_int (n : Z) : value (of_int n) == inject_Z n.
Proof. unfold value, of_int. cbn [coef exp]. rewrite Qpower_0_r. ring. Qed.

Lemma value_zero (e : Z) : value (D 0 e) == 0.
Proof. unfold value. cbn [coef exp]. apply Qmult_0_l. Qed.

Lemma value_add (a b : Decimal) : value (add a b) == value a + value b.
Proof.
  rewrite (value_align a (Z.min (exp a) (exp b))) by apply Z.le_min_l.
  rewrite (value_align b (Z.min (exp a) (exp b))) by apply Z.le_min_r.
  unfold add, value. cbn [coef exp]. rewrite inject_Z_plus. ring.
Qed.

Lemma value_sub (a b : Decimal) : value (sub a b) == value a - value b.
Proof.
  rewrite (value_align a (Z.min (exp a) (exp b))) by apply Z.le_min_l.
  rewrite (value_align b (Z.min (exp a) (exp b))) by apply Z.le_min_r.
  unfold sub, value. cbn [coef exp]. unfold Z.sub.
  rewrite inject_Z_plus, inject_Z_opp. ring.
Qed.

Lemma value_mul (a b : Decimal) : value (mul a b) == value a * value b.
Proof.
  unfold mul, value. cbn [coef exp].
  rewrite inject_Z_mult, Qpower_plus by apply ten_nonzero. ring.
Qed.

Lemma value_min (x y : Decimal) : value (min x y) == Qmin (value x) (value y).
Proof.
  unfold min. destruct (ltb y x) eqn:H.
  - apply ltb_value in H. symmetry. apply Q.min_r. now apply Qlt_le_weak.
  - apply ltb_false_value in H. symmetry. now apply Q.min_l.
Qed.

Lemma truthy_value (d : Decimal) : truthy d = false <-> value d == 0.
Proof.
  unfold truthy, value. rewrite negb_false_iff, Z.eqb_eq. split.
  - intros ->. ring.
  - intros H. apply Qmult_integral in H as [H|H].
    + now apply (inject_Z_injective _ 0%Z).
    + now apply Qpower_not_0 in H; [|apply ten_nonzero].
Qed.

Lemma value_div100 (a : Decimal) :
  value (div100 a) == value a / 100.
Proof.
  unfold div100.
  destruct (coef a mod 100 =? 0)%Z eqn:H100;
    [|destruct (coef a mod 10 =? 0)%Z eqn:H10];
    unfold value; cbn [coef exp].
  - apply Z.eqb_eq in H100.
    rewrite (Z.div_mod (coef a) 100) at 2 by lia.
    rewrite H100, Z.add_0_r, inject_Z_mult. field.
  - apply Z.eqb_eq in H10.
    rewrite (Z.div_mod (coef a) 10) at 2 by lia.
    rewrite H10, Z.add_0_r, inject_Z_mult.
    rewrite Qpower_minus by discriminate. field.
  - rewrite Qpower_minus by discriminate. field.
Qed.

Lemma Qabs_value (d : Decimal) :
  Qabs (value d)
  == inject_Z (Z.abs (coef d)) * ten ^ exp d.
Proof.
  unfold value. rewrite Qabs_Qmult.
  rewrite (Qabs_pos (ten ^ _)) by apply Qlt_le_weak, pow10_pos.
  reflexivity.
Qed.

Lemma value_nonneg (d : Decimal) :
  0 <= value d <-> (0 <= coef d)%Z.
Proof.
  unfold value. rewrite Zle_Qle.
  rewrite <- (Qmult_le_r 0 (inject_Z (coef d)) _
                (pow10_pos (exp d))).
  now rewrite Qmult_0_l.
Qed.

Lemma Qfloor_half (z : Z) : Qfloor (inject_Z z + (1 # 2)) = z.
Proof.
  rewrite (Qfloor_comp _ ((2 * z + 1) # 2)).
  - unfold Qfloor. symmetry. apply (Z.div_unique _ _ _ 1); lia.
  - unfold inject_Z, Qeq, Qplus. simpl. lia.
Qed.

(** Rounding the magnitude [m / p] half up, on integers. *)
Lemma half_up_div (m p : Z) :
  (0 <= m)%Z -> (0 < p)%Z ->
  (if (p <=? 2 * (m mod p))%Z then m / p + 1 else m / p)%Z
  = ((2 * m + p) / (2 * p))%Z.
Proof.
  intros Hm Hp.
  pose proof (Z.div_mod m p ltac:(lia)) as Hdm.
  pose proof (Z.mod_pos_bound m p Hp) as Hr.
  destruct (Z.leb_spec p (2 * (m mod p))).
  - apply (Z.div_unique _ _ _ (2 * (m mod p) - p)); lia.
  - apply (Z.div_unique _ _ _ (2 * (m mod p) + p)); lia.
Qed.

Lemma value_hundredths (c : Z) : value (D c (-2)) == inject_Z c / 100.
Proof.
  unfold value. cbn [coef exp].
  change (ten ^ (-2)) with (/ 100). reflexivity.
Qed.

(** The integer [n] that [round_half_up_2dp] puts in front of the
    hundredths. *)
Lemma round_half_up_2dp_coef (d : Decimal) (n : Z) :
  Qfloor (Qabs (value d) * 100 + (1 # 2)) = n ->
  round_half_up_2dp (value d)
  == value (D (Z.sgn (coef d) * n) (-2)).
Proof.
  intros Hn. unfold round_half_up_2dp. rewrite Hn, value_hundredths.
  rewrite inject_Z_mult.
  destruct (Qle_bool 0 (value d)) eqn:Hs.
  - apply Qle_bool_iff, value_nonneg in Hs.
    destruct (Z.eq_dec (coef d) 0%Z) as [H0|H0].
    + assert (n = 0%Z) as ->.
      { rewrite <- Hn, <- (Qfloor_half 0) at 1. apply Qfloor_comp.
        rewrite Qabs_value, H0. change (inject_Z (Z.abs 0)) with 0.
        change (inject_Z 0) with 0. ring. }
      rewrite H0. reflexivity.
    + replace (Z.sgn (coef d)) with 1%Z by lia.
      field.
  - assert (~ (0 <= coef d)%Z) as Hneg.
    { intros H. apply value_nonneg, Qle_bool_iff in H. congruence. }
    replace (Z.sgn (coef d)) with (-1)%Z by lia.
    change (inject_Z (-1)) with (-(1)). field.
Qed.

Lemma quantize_exp (d q : Decimal) :
  exp (quantize_ROUND_HALF_UP d q) = exp q.
Proof.
  unfold quantize_ROUND_HALF_UP.
  now destruct (exp q <=? exp d)%Z.
Qed.

(** [quantize(Decimal('0.01'), ROUND_HALF_UP)] rounds the denoted number
    to two places, half up. *)
Lemma quantize_round_half_up (d : Decimal) :
  value (quantize_ROUND_HALF_UP d (D 1 (-2)))
  == round_half_up_2dp (value d).
Proof.
  unfold quantize_ROUND_HALF_UP. cbn [exp].
  destruct (Z.leb_spec (-2) (exp d)) as [He|He].
  - rewrite (round_half_up_2dp_coef d (Z.abs (align d (-2)))).
    + unfold align, value. cbn [coef exp].
      assert (0 < 10 ^ (exp d - -2))%Z by (apply Z.pow_pos_nonneg; lia).
      replace (Z.sgn (coef d)
               * Z.abs (coef d * 10 ^ (exp d - -2)))%Z
        with (coef d * 10 ^ (exp d - -2))%Z; [reflexivity|].
      rewrite Z.abs_mul, (Z.abs_eq (10 ^ _)) by lia.
      destruct (coef d); cbn [Z.sgn Z.abs]; lia.
    + rewrite <- (Qfloor_half (Z.abs (align d (-2)))).
      apply Qfloor_comp. rewrite Qabs_value.
      unfold align. rewrite Z.abs_mul, inject_Z_mult.
      rewrite (Z.abs_eq (10 ^ _)) by (apply Z.pow_nonneg; lia).
      rewrite inject_pow10 by lia.
      rewrite Qpower_minus by discriminate.
      change (ten ^ (-2)) with (/ 100).
      field; apply Qpower_not_0; discriminate.
  - set (p := (10 ^ (-2 - exp d))%Z).
    assert (0 < p)%Z as Hp by (apply Z.pow_pos_nonneg; lia).
    rewrite half_up_div by lia.
    rewrite (round_half_up_2dp_coef d
               ((2 * Z.abs (coef d) + p) / (2 * p))); [reflexivity|].
    rewrite Zdiv_Qdiv. apply Qfloor_comp. rewrite Qabs_value.
    rewrite inject_Z_plus, !inject_Z_mult. unfold p.
    rewrite inject_pow10 by lia.
    rewrite Qpower_minus by discriminate.
    change (ten ^ (-2)) with (/ 100). change (inject_Z 2) with 2.
    field; repeat split; try apply Qpower_not_0; discriminate.
Qed.

End DecimalFacts.

Lemma round_half_up_2dp_comp (x y : Q) :
  (x == y)%Q -> (round_half_up_2dp x == round_half_up_2dp y)%Q.
Proof.
  intros H. unfold round_half_up_2dp.
  rewrite (Qfloor_comp (Qabs x * 100 + (1 # 2))%Q (Qabs y * 100 + (1 # 2))%Q)
    by now rewrite H.
  now rewrite (Qleb_comp 0%Q 0%Q (Qeq_refl 0%Q) x y H).
Qed.

(** ** Tax and shipping helpers *)


(** The rate table of [get_shipping_cost], read on lower-cased names. *)
Lemma shipping_rates_lookup (m : string) :
  default (D 599 (-2)) (shipping_rates !! m)
  = if String.eqb m "standard" then D 599 (-2)
    else if String.eqb m "express" then D 1299 (-2)
    else if String.eqb m "overnight" then D 2499 (-2)
    else if String.eqb m "international" then D 1599 (-2)
    else D 599 (-2).
Proof.
  destruct (String.eqb_spec m "standard") as [->|H1]; [reflexivity|].
  destruct (String.eqb_spec m "express") as [->|H2]; [reflexivity|].
  destruct (String.eqb_spec m "overnight") as [->|H3]; [reflexivity|].
  destruct (String.eqb_spec m "international") as [->|H4]; [reflexivity|].
  unfold shipping_rates.
  rewrite !lookup_insert_ne, lookup_empty by congruence. reflexivity.
Qed.

(** C8, as the code has it: shipping is free from 100.00 on (boundary
    included); below it the flat rate is looked up under the lower-cased
    method name, and a name whose lower-cased form is not in the table pays
    the standard 5.99. *)
Theorem get_shipping_cost_rates (subtotal : Decimal) (method : string) :
  get_shipping_cost subtotal method
  = (if Qle_bool 100 (Decimal.value subtotal) then D 0 (-2)
     else if String.eqb (lower method) "standard" then D 599 (-2)
     else if String.eqb (lower method) "express" then D 1299 (-2)
     else if String.eqb (lower method) "overnight" then D 2499 (-2)
     else if String.eqb (lower method) "international" then D 1599 (-2)
     else D 599 (-2))
  /\ get_shipping_cost (D 10000 (-2)) "standard" = D 0 (-2)
  /\ get_shipping_cost (D 9999 (-2)) "standard" = D 599 (-2).
Proof.
  repeat split. unfold get_shipping_cost.
  rewrite shipping_rates_lookup.
  assert ((subtotal >=? FREE_SHIPPING_THRESHOLD)%dec
          = Qle_bool 100 (Decimal.value subtotal)) as ->; [|reflexivity].
  apply eq_true_iff_eq. rewrite geb_value, Qle_bool_iff.
  assert (Decimal.value FREE_SHIPPING_THRESHOLD == 100)%Q as -> by reflexivity.
  reflexivity.
Qed.

(** C8, as stated, fails: ["EXPRESS"] is not a key of the rate table, yet
    below the threshold it pays the express rate, not the standard one. *)
Lemma get_shipping_cost_uppercase :
  shipping_rates !! "EXPRESS" = None
  /\ (D 5000 (-2) >=? FREE_SHIPPING_THRESHOLD)%dec = false
  /\ get_shipping_cost (D 5000 (-2)) "EXPRESS" = D 1299 (-2)
  /\ get_shipping_cost (D 5000 (-2)) "EXPRESS" <> D 599 (-2).
Proof. repeat split. discriminate. Qed.

(** ** Coupons *)

Lemma is_valid_self (now : datetime) (c : Coupon) : snd (is_valid now c) = c.
Proof.
  unfold is_valid, mbind, attr, mret.
  repeat case_match; reflexivity.
Qed.

Lemma is_valid_eq (now : datetime) (c : Coupon) :
  fst (is_valid now c)
  = is_active c
    && negb (valid_from c >? now)
    && negb match valid_until c with Some u => u <? now | None => false end
    && negb match usage_limit c with
            | Some l => negb (l =? 0) && (usage_count c >=? l)
            | None => false
            end.
Proof.
  unfold is_valid, mbind, attr, mret.
  destruct (is_active c); cbn; [|reflexivity].
  destruct (valid_from c >? now); cbn; [reflexivity|].
  destruct (valid_until c) as [u|];
    [destruct (u <? now); cbn; [reflexivity|]|cbn];
    (destruct (usage_limit c) as [l|];
     [destruct (negb (l =? 0) && (usage_count c >=? l))|]; reflexivity).
Qed.

Lemma calculate_discount_eq (now : datetime) (order_amount : Decimal)
    (c : Coupon) :
  calculate_discount now order_amount c
  = (if negb (fst (is_valid now c)) then D 0 (-2)
     else if match minimum_order_amount c with
             | Some m => Decimal.truthy m && (order_amount <? m)%dec
             | None => false
             end
     then D 0 (-2)
     else
       let discount :=
         if String.eqb (discount_type c) "percentage"
         then (order_amount * Decimal.div100 (discount_value c))%dec
         else discount_value c in
       let discount :=
         match maximum_discount_amount c with
         | Some m =>
             if Decimal.truthy m then Decimal.min discount m else discount
         | None => discount
         end in
       Decimal.min discount order_amount,
     c).
Proof.
  unfold calculate_discount, mbind.
  pose proof (is_valid_self now c) as Hself.
  destruct (is_valid now c) as [valid c']. cbn [fst snd] in *. subst c'.
  unfold attr, mret.
  destruct valid; cbn [negb]; [|reflexivity].
  repeat case_match; reflexivity.
Qed.

(** C4, as the code has it: [is_valid] is false exactly when the coupon is
    inactive, or not yet valid, or past a set [valid_until], or a set and
    non-zero [usage_limit] is reached; the coupon is left as it was. *)
Theorem is_valid_false_iff (c : Coupon) (now : datetime) :
  (fst (is_valid now c) = false <->
     is_active c = false
     \/ now < valid_from c
     \/ (exists u, valid_until c = Some u /\ now > u)
     \/ (exists l, usage_limit c = Some l /\ l <> 0 /\ usage_count c >= l))
  /\ snd (is_valid now c) = c.
Proof.
  split; [|apply is_valid_self].
  rewrite is_valid_eq, !andb_false_iff, !negb_false_iff.
  split.
  - intros [[[H|H]|H]|H].
    + now left.
    + right; left. lia.
    + right; right; left. destruct (valid_until c) as [u|]; [|discriminate].
      exists u. split; [reflexivity|lia].
    + right; right; right. destruct (usage_limit c) as [l|]; [|discriminate].
      apply andb_true_iff in H as [H1 H2]. apply negb_true_iff in H1.
      exists l. repeat split; lia.
  - intros [H|[H|[(u & Hu & H)|(l & Hl & H0 & H)]]].
    + now left; left; left.
    + left; left; right. lia.
    + left; right. rewrite Hu. lia.
    + right. rewrite Hl. apply andb_true_iff.
      split; [apply negb_true_iff|]; lia.
Qed.

(** C4, as stated, fails: a usage limit that is set to [0] is reached by
    any usage count, yet the coupon is valid. *)
Lemma is_valid_zero_usage_limit :
  usage_limit zero_limit_coupon = Some 0
  /\ usage_count zero_limit_coupon >= 0
  /\ coupon_is_valid_spec zero_limit_coupon 10 = false
  /\ fst (is_valid 10 zero_limit_coupon) = true.
Proof. repeat split. discriminate. Qed.

(** C10: a zero in an optional coupon field acts as a missing field: a
    usage limit of [0] is no limit, a maximum discount of zero is no cap
    and a minimum order amount of zero is no threshold. *)
Theorem zero_optional_fields_are_absent (c : Coupon) (now : datetime)
    (order_amount : Decimal) (e : Z) :
  fst (is_valid now (set_usage_limit (Some 0) c))
  = fst (is_valid now (set_usage_limit None c))
  /\ fst (calculate_discount now order_amount
            (set_maximum_discount_amount (Some (D 0 e)) c))
     = fst (calculate_discount now order_amount
              (set_maximum_discount_amount None c))
  /\ fst (calculate_discount now order_amount
            (set_minimum_order_amount (Some (D 0 e)) c))
     = fst (calculate_discount now order_amount
              (set_minimum_order_amount None c))
  /\ fst (is_valid 10 zero_limit_coupon) = true
  /\ fst (calculate_discount 10 (D 10000 (-2)) zero_cap_coupon)
     = D 200000 (-4).
Proof.
  repeat split.
  - rewrite !is_valid_eq. reflexivity.
  - rewrite !calculate_discount_eq, !is_valid_eq. reflexivity.
  - rewrite !calculate_discount_eq, !is_valid_eq. reflexivity.
Qed.

(** The two shapes of a discount: nothing, or an amount capped at the
    order amount. *)
Lemma calculate_discount_cases (c : Coupon) (now : datetime)
    (order_amount : Decimal) :
  fst (calculate_discount now order_amount c) = D 0 (-2)
  \/ exists discount,
       fst (calculate_discount now order_amount c)
       = Decimal.min discount order_amount.
Proof.
  rewrite calculate_discount_eq. cbn [fst].
  destruct (negb (fst (is_valid now c))); [now left|].
  destruct (match minimum_order_amount c with
            | Some m => Decimal.truthy m && (order_amount <? m)%dec
            | None => false
            end); [now left|].
  right. eexists. reflexivity.
Qed.

(** C7: whatever the coupon, valid or not, the discount on a non-negative
    order amount does not exceed that amount. *)
Theorem calculate_discount_le_order_amount (c : Coupon) (now : datetime)
    (order_amount : Decimal) :
  (0 <= Decimal.value order_amount)%Q ->
  (Decimal.value (fst (calculate_discount now order_amount c))
   <= Decimal.value order_amount)%Q.
Proof.
  intros Hpos.
  destruct (calculate_discount_cases c now order_amount) as [H|[x H]];
    rewrite H.
  - now rewrite value_zero.
  - rewrite value_min. apply Q.le_min_r.
Qed.

Lemma calculate_discount_le_order_amount_witness :
  (0 <= Decimal.value (D 500 (-2)))%Q /\
  Qle
    (Decimal.value
       (fst (calculate_discount 10 (D 500 (-2))
               (mkCoupon "FIVER" "fixed_amount" (D 1500 (-2)) None None None 0
                  true 0 None))))
    (Decimal.value (D 500 (-2))).
Proof.
  split; [discriminate|].
  apply calculate_discount_le_order_amount. discriminate.
Defined.

Lemma truthy_Qeq_bool (d : Decimal) :
  Decimal.truthy d = negb (Qeq_bool (Decimal.value d) 0).
Proof.
  apply eq_true_iff_eq. rewrite negb_true_iff.
  rewrite <- !not_true_iff_false, Qeq_bool_iff, <- truthy_value.
  destruct (Decimal.truthy d); intuition congruence.
Qed.




(** ** Status transitions *)

Lemma valid_transitions_lookup (current : string) :
  default [] (valid_transitions !! current)
  = if String.eqb current "pending" then ["confirmed"; "cancelled"]
    else if String.eqb current "confirmed" then ["processing"; "cancelled"]
    else if String.eqb current "processing" then ["shipped"; "cancelled"]
    else if String.eqb current "shipped" then ["delivered"]
    else if String.eqb current "delivered" then ["refunded"]
    else [].
Proof.
  destruct (String.eqb_spec current "pending") as [->|H1]; [reflexivity|].
  destruct (String.eqb_spec current "confirmed") as [->|H2]; [reflexivity|].
  destruct (String.eqb_spec current "processing") as [->|H3]; [reflexivity|].
  destruct (String.eqb_spec current "shipped") as [->|H4]; [reflexivity|].
  destruct (String.eqb_spec current "delivered") as [->|H5]; [reflexivity|].
  destruct (String.eqb_spec current "cancelled") as [->|H6]; [reflexivity|].
  destruct (String.eqb_spec current "refunded") as [->|H7]; [reflexivity|].
  unfold valid_transitions.
  rewrite !lookup_insert_ne, lookup_empty by congruence. reflexivity.
Qed.

Lemma allowed_iff_Transition (current value : string) :
  existsb (String.eqb value) (default [] (valid_transitions !! current)) = true
  <-> Transition current value.
Proof.
  rewrite valid_transitions_lookup. split.
  - destruct (String.eqb_spec current "pending") as [->|?];
      [|destruct (String.eqb_spec current "confirmed") as [->|?];
        [|destruct (String.eqb_spec current "processing") as [->|?];
          [|destruct (String.eqb_spec current "shipped") as [->|?];
            [|destruct (String.eqb_spec current "delivered") as [->|?]]]]];
      cbn [existsb]; rewrite ?orb_false_r, ?orb_true_iff, ?String.eqb_eq;
      intuition (subst; (constructor || congruence)).
  - destruct 1; reflexivity.
Qed.

(** C5: with an order at hand, [validate_status] accepts the requested
    status exactly when the transition table allows it from the current
    status, and otherwise raises a validation error; [shipped] may become
    [delivered] but not [cancelled], and [cancelled] and [refunded] accept
    nothing. *)
Theorem validate_status_Transition (order : Order) (value : string) :
  (validate_status (Some order) value = Ok value
   <-> Transition (status order) value)
  /\ (validate_status (Some order) value = Ok value
      \/ exists detail,
           validate_status (Some order) value = Raise (ValidationError detail))
  /\ validate_status (Some (set_status "shipped" order)) "delivered"
     = Ok "delivered"
  /\ (exists detail,
        validate_status (Some (set_status "shipped" order)) "cancelled"
        = Raise (ValidationError detail))
  /\ (exists detail,
        validate_status (Some (set_status "cancelled" order)) value
        = Raise (ValidationError detail))
  /\ (exists detail,
        validate_status (Some (set_status "refunded" order)) value
        = Raise (ValidationError detail)).
Proof.
  assert (forall o v,
            validate_status (Some o) v
            = if existsb (String.eqb v)
                   (default [] (valid_transitions !! status o))
              then Ok v
              else Raise (ValidationError
                            ("Cannot change status from " ++ status o
                             ++ " to " ++ v ++ "."))) as Heq.
  { intros o v. unfold validate_status.
    now destruct (existsb _ _). }
  split; [|split; [|split; [|split; [|split]]]].
  - rewrite Heq, <- allowed_iff_Transition.
    destruct (existsb _ _); intuition congruence.
  - rewrite Heq. destruct (existsb _ _); eauto.
  - reflexivity.
  - eexists. reflexivity.
  - rewrite Heq. eexists. reflexivity.
  - rewrite Heq. eexists. reflexivity.
Qed.

(** ** Checkout *)

Lemma add_order_items_nil (db : Db) : add_order_items db [] = db.
Proof. destruct db. unfold add_order_items. cbn. now rewrite app_nil_r. Qed.

(** One pass of the loop body up to the unit price. *)
Lemma unit_price_step {A} (db : Db) (it : ItemData) (p : Decimal)
    (k : Decimal -> ORM A) :
  unit_price_in (products db) (variants db) it = Some p ->
  bind (Product_objects_get (product_id it))
    (fun product =>
       bind
         match variant_id it with
         | Some vid =>
             except_DoesNotExist "ProductVariant"
               (bind (ProductVariant_objects_get vid (product_id it))
                  (fun variant => effective_price variant))
               (raise (ValidationError "Product variant does not exist."))
         | None => ret (product_price product)
         end k) db
  = k p db.
Proof.
  unfold unit_price_in, bind, Product_objects_get. intros H.
  destruct (products db !! product_id it) as [prod|] eqn:Hprod; [|discriminate].
  destruct (variant_id it) as [vid|]; [|injection H as <-; reflexivity].
  unfold except_DoesNotExist, bind, ProductVariant_objects_get.
  destruct (variants db !! vid) as [v|]; [|discriminate].
  destruct (N.eqb_spec (variant_product v) (product_id it)) as [Hv|];
    [|discriminate].
  injection H as <-. unfold effective_price.
  destruct (variant_price v) as [x|]; [reflexivity|].
  unfold bind, Product_objects_get, ret. rewrite Hv, Hprod. reflexivity.
Qed.

Lemma unit_price_step_Ok {A} (db db' : Db) (it : ItemData) (a : A)
    (k : Decimal -> ORM A) :
  bind (Product_objects_get (product_id it))
    (fun product =>
       bind
         match variant_id it with
         | Some vid =>
             except_DoesNotExist "ProductVariant"
               (bind (ProductVariant_objects_get vid (product_id it))
                  (fun variant => effective_price variant))
               (raise (ValidationError "Product variant does not exist."))
         | None => ret (product_price product)
         end k) db
  = (Ok a, db') ->
  is_Some (unit_price_in (products db) (variants db) it).
Proof.
  unfold unit_price_in, bind, Product_objects_get.
  destruct (products db !! product_id it) as [prod|] eqn:Hprod; [|discriminate].
  destruct (variant_id it) as [vid|]; [|eauto].
  unfold except_DoesNotExist, bind, ProductVariant_objects_get.
  destruct (variants db !! vid) as [v|]; [|discriminate].
  destruct (N.eqb_spec (variant_product v) (product_id it)) as [Hv|];
    [eauto|discriminate].
Qed.

(** The loop succeeds on items that all have a price, and returns the
    subtotal of the priced items after writing one order line each. *)
Lemma create_items_priced (order : Order) (items_data : list ItemData)
    (prices : list Decimal) :
  forall (acc : Decimal) (db : Db),
    Forall2 (fun it p =>
               unit_price_in (products db) (variants db) it = Some p)
      items_data prices ->
    create_items order items_data acc db
    = (Ok (subtotal_of acc (zip items_data prices)),
       add_order_items db
         (new_order_items (order_id order) (zip items_data prices))).
Proof.
  revert prices.
  induction items_data as [|it rest IH]; intros prices acc db H;
    inversion H as [|? p ? prices' Hp Hrest]; subst.
  - cbn. unfold ret. now rewrite add_order_items_nil.
  - cbn [create_items].
    rewrite (unit_price_step db it p _ Hp).
    unfold bind at 1, OrderItem_objects_create.
    rewrite IH with (prices := prices') by exact Hrest.
    cbn [zip zip_with subtotal_of fold_left new_order_items map fst snd].
    f_equal. unfold OrderItem_save. cbn.
    unfold add_order_items. cbn. now rewrite <- app_assoc.
Qed.

(** Conversely, the loop only succeeds when every item has a price. *)
Lemma create_items_Ok (order : Order) (items_data : list ItemData) :
  forall (acc sub : Decimal) (db db' : Db),
    create_items order items_data acc db = (Ok sub, db') ->
    exists prices,
      Forall2 (fun it p =>
                 unit_price_in (products db) (variants db) it = Some p)
        items_data prices.
Proof.
  induction items_data as [|it rest IH]; intros acc sub db db' H.
  - exists []. constructor.
  - cbn [create_items] in H.
    destruct (unit_price_step_Ok _ _ _ _ _ H) as [p Hp].
    rewrite (unit_price_step db it p _ Hp) in H.
    unfold bind at 1, OrderItem_objects_create in H.
    apply IH in H as [prices Hprices].
    exists (p :: prices). constructor; assumption.
Qed.

Lemma calculate_discount_self (now : datetime) (amount : Decimal)
    (c : Coupon) :
  snd (calculate_discount now amount c) = c.
Proof. now rewrite calculate_discount_eq. Qed.

(** [create] on items that all have a price. *)
Lemma create_priced (now : datetime) (id : UUID) (data : ValidatedData)
    (db : Db) (prices : list Decimal) :
  Forall2 (fun it p => unit_price_in (products db) (variants db) it = Some p)
    (items data) prices ->
  create now id data db
  = (Ok (fst (checkout now id data db prices)),
     snd (checkout now id data db prices)).
Proof.
  intros Hprices. unfold create, checkout.
  unfold bind at 1, Order_objects_create, bind at 1, Order_save, ret at 1.
  unfold bind at 1.
  rewrite create_items_priced with (prices := prices) by exact Hprices.
  cbn [order_id]. unfold bind at 1.
  set (sub := subtotal_of (D 0 (-2)) (zip (items data) prices)).
  unfold applied_coupon.
  destruct (coupon_code data) as [[|a k]|]; try reflexivity.
  unfold except_DoesNotExist, bind at 1, Coupon_objects_get.
  cbn [coupons add_order_items].
  destruct (coupons db !! String a k) as [c|]; [|reflexivity].
  pose proof (calculate_discount_self now sub c) as Hself.
  destruct (calculate_discount now sub c) as [d c'] eqn:Hd.
  cbn [fst snd] in *. subst c'.
  destruct (d >? Decimal.of_int 0)%dec; reflexivity.
Qed.

Section Totals.

Local Open Scope Q_scope.

Lemma value_subtotal_of (priced : list (ItemData * Decimal)) :
  forall acc,
    Forall (fun ip => 0 <= Decimal.value (snd ip)
                      /\ (0 <= item_quantity (fst ip))%Z) priced ->
    Decimal.value acc <= Decimal.value (subtotal_of acc priced).
Proof.
  induction priced as [|ip rest IH]; intros acc H.
  - apply Qle_refl.
  - inversion H as [|? ? [Hp Hq] Hrest]; subst.
    cbn [subtotal_of fold_left]. eapply Qle_trans; [|apply IH, Hrest].
    rewrite value_add, value_mul, value_of_int.
    rewrite <- (Qplus_0_r (Decimal.value acc)) at 1.
    apply Qplus_le_r, Qmult_le_0_compat; [exact Hp|].
    now rewrite <- (Zle_Qle 0).
Qed.

Lemma unit_price_in_nonneg (db : Db) (it : ItemData) (p : Decimal) :
  prices_nonneg db ->
  unit_price_in (products db) (variants db) it = Some p ->
  0 <= Decimal.value p.
Proof.
  intros [Hps Hvs]. unfold unit_price_in.
  destruct (products db !! product_id it) as [prod|] eqn:Hprod;
    [|discriminate].
  destruct (variant_id it) as [vid|].
  - destruct (variants db !! vid) as [v|] eqn:Hv; [|discriminate].
    destruct (variant_product v =? product_id it)%N; [|discriminate].
    intros [= <-]. destruct (variant_price v) as [x|] eqn:Hx; cbn; eauto.
  - intros [= <-]. eauto.
Qed.

(** A successful [create] priced every item. *)
Lemma create_Ok_priced (now : datetime) (id : UUID) (data : ValidatedData)
    (db db' : Db) (o : Order) :
  create now id data db = (Ok o, db') ->
  exists prices,
    Forall2 (fun it p => unit_price_in (products db) (variants db) it = Some p)
      (items data) prices
    /\ o = fst (checkout now id data db prices)
    /\ db' = snd (checkout now id data db prices).
Proof.
  intros H.
  assert (exists prices,
            Forall2 (fun it p =>
                       unit_price_in (products db) (variants db) it = Some p)
              (items data) prices) as [prices Hprices].
  { unfold create in H.
    unfold bind at 1, Order_objects_create, bind at 1, Order_save, ret at 1
      in H.
    unfold bind at 1 in H.
    match type of H with
    | context [create_items ?ord ?its ?acc ?d] =>
        destruct (create_items ord its acc d) as [[sub|e] db1] eqn:Hitems
    end; [|discriminate].
    apply create_items_Ok in Hitems. exact Hitems. }
  exists prices. split; [exact Hprices|].
  rewrite (create_priced now id data db prices Hprices) in H.
  now injection H as <- <-.
Qed.

Lemma checkout_total_nonneg (now : datetime) (id : UUID)
    (data : ValidatedData) (db : Db) (prices : list Decimal) :
  prices_nonneg db ->
  Forall (fun it => validate_quantity (item_quantity it)
                    = Ok (item_quantity it)) (items data) ->
  Forall2 (fun it p => unit_price_in (products db) (variants db) it = Some p)
    (items data) prices ->
  let o := fst (checkout now id data db prices) in
  0 <= Decimal.value (subtotal o)
  /\ 0 <= Decimal.value (discount_amount o) <= Decimal.value (subtotal o)
  /\ 0 <= Decimal.value (total_amount o).
Proof.
  intros Hdb Hq Hprices.
  cbn [checkout fst subtotal discount_amount total_amount].
  set (sub := subtotal_of (D 0 (-2)) (zip (items data) prices)).
  assert (0 <= Decimal.value sub) as Hsub.
  { rewrite <- (value_zero (-2)). apply value_subtotal_of.
    clear sub. revert Hq. induction Hprices as [|it p its ps Hp _ IH];
      intros Hq; [constructor|].
    inversion Hq as [|? ? Hit Hits]; subst.
    cbn [zip zip_with]. constructor; [|now apply IH].
    cbn [fst snd]. split; [now apply (unit_price_in_nonneg db it)|].
    unfold validate_quantity in Hit.
    destruct (Z.leb_spec (item_quantity it) 0); [discriminate|lia]. }
  assert (0 <= Decimal.value
                 (from_option snd (D 0 (-2))
                    (applied_coupon now (coupons db) data sub))
          <= Decimal.value sub) as Hdisc.
  { unfold applied_coupon.
    destruct (coupon_code data) as [[|a k]|]; cbn [from_option];
      rewrite ?value_zero; try (split; [apply Qle_refl|exact Hsub]).
    destruct (coupons db !! String a k) as [c|]; cbn [from_option];
      rewrite ?value_zero; try (split; [apply Qle_refl|exact Hsub]).
    destruct (fst (calculate_discount now sub c) >? Decimal.of_int 0)%dec
      eqn:Hpos; cbn [from_option snd];
      rewrite ?value_zero; try (split; [apply Qle_refl|exact Hsub]).
    apply gtb_value in Hpos. rewrite value_of_int in Hpos.
    split; [now apply Qlt_le_weak|].
    destruct (calculate_discount_cases c now sub) as [H|[x H]]; rewrite H.
    - now rewrite value_zero.
    - rewrite value_min. apply Q.le_min_r. }
  split; [exact Hsub|]. split; [exact Hdisc|].
  rewrite value_sub, !value_add, !value_zero.
  destruct Hdisc as [_ Hle].
  apply (Qplus_le_l _ _ (Decimal.value
                           (from_option snd (D 0 (-2))
                              (applied_coupon now (coupons db) data sub)))).
  ring_simplify. exact Hle.
Qed.

Lemma value_subtotal_of_sum (priced : list (ItemData * Decimal)) :
  forall acc,
    Decimal.value (subtotal_of acc priced)
    == Decimal.value acc + line_sum priced.
Proof.
  induction priced as [|ip rest IH]; intros acc.
  - cbn. ring.
  - cbn [subtotal_of fold_left line_sum fold_right].
    change (fold_left _ rest ?a) with (subtotal_of a rest).
    change (fold_right _ 0 rest) with (line_sum rest).
    rewrite IH, value_add, value_mul, value_of_int. ring.
Qed.

Lemma applied_coupon_Some (now : datetime) (cs : gmap string Coupon)
    (data : ValidatedData) (sub : Decimal) (c : Coupon) (d : Decimal) :
  applied_coupon now cs data sub = Some (c, d) ->
  exists k,
    coupon_code data = Some k /\ k <> EmptyString /\ cs !! k = Some c
    /\ d = fst (calculate_discount now sub c)
    /\ 0 < Decimal.value d.
Proof.
  unfold applied_coupon.
  destruct (coupon_code data) as [[|a k]|]; try discriminate.
  destruct (cs !! String a k) as [c'|] eqn:Hk; [|discriminate].
  destruct (fst (calculate_discount now sub c') >? Decimal.of_int 0)%dec
    eqn:Hpos; [|discriminate].
  intros [= <- <-]. exists (String a k).
  repeat split; try done.
  apply gtb_value in Hpos. now rewrite value_of_int in Hpos.
Qed.

Lemma applied_coupon_positive (now : datetime) (cs : gmap string Coupon)
    (data : ValidatedData) (sub : Decimal) (k : string) (c : Coupon) :
  coupon_code data = Some k -> k <> EmptyString -> cs !! k = Some c ->
  0 < Decimal.value (fst (calculate_discount now sub c)) ->
  applied_coupon now cs data sub
  = Some (c, fst (calculate_discount now sub c)).
Proof.
  intros Hcode Hk Hc Hpos. unfold applied_coupon. rewrite Hcode.
  destruct k as [|a k]; [congruence|]. rewrite Hc.
  assert ((fst (calculate_discount now sub c) >? Decimal.of_int 0)%dec = true)
    as ->; [|reflexivity].
  apply gtb_value. now rewrite value_of_int.
Qed.

End Totals.

Section Checkout.

Local Open Scope Q_scope.








End Checkout.

(** * Further properties of the order utilities *)

(** ** Shipping *)

Lemma lower_ascii_idempotent (c : Ascii.ascii) :
  lower_ascii (lower_ascii c) = lower_ascii c.
Proof. destruct c as [[] [] [] [] [] [] [] []]; reflexivity. Qed.

Lemma lower_idempotent (s : string) : lower (lower s) = lower s.
Proof.
  induction s as [|c s IH]; [reflexivity|].
  cbn [lower]. now rewrite lower_ascii_idempotent, IH.
Qed.

(** The five amounts [get_shipping_cost] can return. *)
Lemma get_shipping_cost_range (subtotal : Decimal) (method : string) :
  In (get_shipping_cost subtotal method)
    [D 0 (-2); D 599 (-2); D 1299 (-2); D 2499 (-2); D 1599 (-2)].
Proof.
  unfold get_shipping_cost. rewrite shipping_rates_lookup.
  repeat case_match; cbn; tauto.
Qed.

Lemma value_FREE_SHIPPING_THRESHOLD :
  (Decimal.value FREE_SHIPPING_THRESHOLD == 100)%Q.
Proof. reflexivity. Qed.

Lemma get_shipping_cost_free (subtotal : Decimal) (method : string) :
  (100 <= Decimal.value subtotal)%Q ->
  get_shipping_cost subtotal method = D 0 (-2).
Proof.
  intros H. unfold get_shipping_cost.
  assert ((subtotal >=? FREE_SHIPPING_THRESHOLD)%dec = true) as ->;
    [|reflexivity].
  apply geb_value. now rewrite value_FREE_SHIPPING_THRESHOLD.
Qed.

(** X1: the shipping cost is never negative and never above the overnight
    rate [24.99], and a larger subtotal never pays more for the same
    method. *)
Theorem get_shipping_cost_antitone (subtotal subtotal' : Decimal)
    (method : string) :
  (Decimal.value subtotal <= Decimal.value subtotal')%Q ->
  (0 <= Decimal.value (get_shipping_cost subtotal method) <= 2499 # 100)%Q
  /\ (Decimal.value (get_shipping_cost subtotal' method)
      <= Decimal.value (get_shipping_cost subtotal method))%Q.
Proof.
  intros Hle.
  assert (forall s,
            (0 <= Decimal.value (get_shipping_cost s method) <= 2499 # 100)%Q)
    as Hrange.
  { intros s. pose proof (get_shipping_cost_range s method) as H.
    cbn [In] in H.
    destruct H as [<-|[<-|[<-|[<-|[<-|[]]]]]]; split; discriminate. }
  split; [apply Hrange|].
  destruct (Qlt_le_dec (Decimal.value subtotal') 100) as [Hlt|Hge].
  - assert (forall s, (Decimal.value s < 100)%Q ->
                      get_shipping_cost s method
                      = default (D 599 (-2))
                          (shipping_rates !! lower method)) as Hbelow.
    { intros s Hs. unfold get_shipping_cost.
      assert ((s >=? FREE_SHIPPING_THRESHOLD)%dec = false) as ->;
        [|reflexivity].
      apply not_true_is_false.
      rewrite geb_value, value_FREE_SHIPPING_THRESHOLD.
      now apply Qlt_not_le. }
    rewrite (Hbelow subtotal'), (Hbelow subtotal); [apply Qle_refl| |exact Hlt].
    eapply Qle_lt_trans; [exact Hle|exact Hlt].
  - rewrite (get_shipping_cost_free subtotal' method Hge), value_zero.
    apply Hrange.
Qed.

Lemma get_shipping_cost_antitone_witness :
  (Decimal.value (D 9999 (-2)) <= Decimal.value (D 10000 (-2)))%Q
  /\ (Decimal.value (get_shipping_cost (D 10000 (-2)) "overnight")
      <= Decimal.value (get_shipping_cost (D 9999 (-2)) "overnight"))%Q.
Proof.
  split; [discriminate|].
  apply (get_shipping_cost_antitone (D 9999 (-2)) (D 10000 (-2)) "overnight").
  discriminate.
Defined.

(** X2: the method name is matched without regard to the case of its
    ASCII letters: a name and its lower-cased form cost the same. *)
Theorem get_shipping_cost_lower (subtotal : Decimal) (method : string) :
  get_shipping_cost subtotal (lower method) = get_shipping_cost subtotal method
  /\ get_shipping_cost subtotal "Overnight"
     = get_shipping_cost subtotal "overnight".
Proof.
  split; [|reflexivity].
  unfold get_shipping_cost. now rewrite lower_idempotent.
Qed.

(** ** Tax *)

Section TaxRounding.

Local Open Scope Q_scope.

(** Rounding half up to two places moves a number by at most half a
    hundredth. *)
Lemma round_half_up_2dp_error (x : Q) :
  Qabs (round_half_up_2dp x - x) <= 1 # 200.
Proof.
  unfold round_half_up_2dp.
  set (n := Qfloor (Qabs x * 100 + (1 # 2))).
  pose proof (Qfloor_le (Qabs x * 100 + (1 # 2))) as Hlo.
  pose proof (Qlt_floor (Qabs x * 100 + (1 # 2))) as Hhi.
  fold n in Hlo, Hhi. rewrite inject_Z_plus in Hhi.
  change (inject_Z 1) with 1 in Hhi.
  assert (inject_Z n == inject_Z n / 100 * 100) as Hm by field.
  set (m := inject_Z n / 100) in *.
  apply Qabs_Qle_condition.
  destruct (Qle_bool 0 x) eqn:Hs.
  - apply Qle_bool_iff in Hs. rewrite (Qabs_pos x Hs) in Hlo, Hhi.
    split; lra.
  - assert (x <= 0) as Hneg.
    { apply Qlt_le_weak, Qnot_le_lt. intros H.
      apply Qle_bool_iff in H. congruence. }
    rewrite (Qabs_neg x Hneg) in Hlo, Hhi. split; lra.
Qed.

Lemma round_half_up_2dp_nonneg (x : Q) : 0 <= x -> 0 <= round_half_up_2dp x.
Proof.
  intros Hx. unfold round_half_up_2dp.
  apply Qle_bool_iff in Hx as Hb. rewrite Hb.
  apply Qle_shift_div_l; [reflexivity|]. rewrite Qmult_0_l.
  rewrite <- (Zle_Qle 0). rewrite <- (Qfloor_Z 0).
  apply Qfloor_resp_le. change (inject_Z 0) with 0.
  rewrite <- (Qplus_0_r 0). apply Qplus_le_compat; [|discriminate].
  apply Qmult_le_0_compat; [apply Qabs_nonneg|discriminate].
Qed.



End TaxRounding.

(** ** Checkout: failures, coupons that do not apply, order lines *)

Section CheckoutFurther.

Local Open Scope Q_scope.

(** The loop writes order lines only, whatever its outcome. *)
Lemma create_items_frame (order : Order) (items_data : list ItemData) :
  forall acc db r db',
    create_items order items_data acc db = (r, db') ->
    products db' = products db /\ variants db' = variants db
    /\ coupons db' = coupons db /\ orders db' = orders db
    /\ coupon_usages db' = coupon_usages db.
Proof.
  induction items_data as [|it rest IH]; intros acc db r db' H.
  - cbn in H. unfold ret in H. now injection H as <- <-.
  - cbn [create_items] in H.
    destruct (unit_price_in (products db) (variants db) it) as [p|] eqn:Hp.
    + rewrite (unit_price_step db it p _ Hp) in H.
      unfold bind at 1, OrderItem_objects_create in H.
      apply IH in H. exact H.
    + revert H. unfold unit_price_in in Hp.
      unfold bind at 1, Product_objects_get.
      destruct (products db !! product_id it) as [prod|] eqn:Hprod;
        [|now intros [= <- <-]].
      destruct (variant_id it) as [vid|]; [|discriminate].
      unfold bind at 1, except_DoesNotExist, bind at 1,
        ProductVariant_objects_get.
      destruct (variants db !! vid) as [v|];
        [|cbn; unfold raise; now intros [= <- <-]].
      destruct (variant_product v =? product_id it)%N; [discriminate|].
      cbn. unfold raise. now intros [= <- <-].
Qed.

(** An item without a price stops the loop with an exception. *)
Lemma create_items_unpriced (order : Order) (items_data : list ItemData) :
  forall acc db,
    Exists (fun it => unit_price_in (products db) (variants db) it = None)
      items_data ->
    exists e db',
      create_items order items_data acc db = (Raise e, db')
      /\ (e = DoesNotExist "Product"
          \/ e = ValidationError "Product variant does not exist.").
Proof.
  induction items_data as [|it rest IH]; intros acc db Hex.
  - inversion Hex.
  - cbn [create_items].
    destruct (unit_price_in (products db) (variants db) it) as [p|] eqn:Hp.
    + rewrite (unit_price_step db it p _ Hp).
      unfold bind at 1, OrderItem_objects_create.
      apply IH. inversion Hex as [? ? Hnone|? ? Htail]; subst;
        [congruence|exact Htail].
    + clear Hex IH. unfold unit_price_in in Hp.
      unfold bind at 1, Product_objects_get.
      destruct (products db !! product_id it) as [prod|] eqn:Hprod;
        [|eexists _, _; split; [reflexivity|now left]].
      destruct (variant_id it) as [vid|]; [|discriminate].
      unfold bind at 1, except_DoesNotExist, bind at 1,
        ProductVariant_objects_get.
      destruct (variants db !! vid) as [v|];
        [|cbn; unfold raise; eexists _, _; split; [reflexivity|now right]].
      destruct (variant_product v =? product_id it)%N; [discriminate|].
      cbn. unfold raise. eexists _, _; split; [reflexivity|now right].
Qed.

(** [create] before the coupon: the order row, then the loop. *)
Lemma create_Raise (now : datetime) (id : UUID) (data : ValidatedData)
    (db db1 : Db) (e : Exception) :
  let order0 :=
    mkOrder id (data_user data) "pending" (D 0 (-2)) (D 0 (-2)) (D 0 (-2))
      (D 0 (-2)) (D 0 (-2)) (data_shipping_method data) in
  create_items order0 (items data) (D 0 (-2))
    (mkDb (products db) (variants db) (coupons db)
       (<[id := order0]> (orders db)) (order_items db) (coupon_usages db))
  = (Raise e, db1) ->
  create now id data db = (Raise e, db1).
Proof.
  intros order0 H. unfold create.
  unfold bind at 1, Order_objects_create, bind at 1, Order_save, ret at 1.
  unfold bind at 1. cbn [order_id]. fold order0. now rewrite H.
Qed.



(** A discount that is positive comes from a valid coupon. *)
Lemma positive_discount_valid (c : Coupon) (now : datetime)
    (amount : Decimal) :
  0 < Decimal.value (fst (calculate_discount now amount c)) ->
  fst (is_valid now c) = true.
Proof.
  rewrite calculate_discount_eq. cbn [fst].
  destruct (fst (is_valid now c)); [reflexivity|].
  cbn [negb]. rewrite value_zero. intros H. now apply Qlt_irrefl in H.
Qed.



(** What a checkout does to the coupon table, whatever its outcome:
    nothing, or one more use of a coupon that was valid. *)
Lemma create_coupons (now : datetime) (id : UUID) (data : ValidatedData)
    (db db' : Db) (r : Result Order) :
  create now id data db = (r, db') ->
  coupons db' = coupons db
  \/ exists k c,
       coupons db !! k = Some c /\ fst (is_valid now c) = true
       /\ coupons db'
          = <[code c := set_usage_count (usage_count c + 1) c]> (coupons db).
Proof.
  intros H. destruct r as [o|e].
  - destruct (create_Ok_priced _ _ _ _ _ _ H) as (prices & _ & _ & ->).
    cbn [checkout snd coupons].
    destruct (applied_coupon now (coupons db) data _) as [[c d]|] eqn:Hap;
      [|now left].
    apply applied_coupon_Some in Hap as (k & _ & _ & Hc & -> & Hpos).
    right. exists k, c. repeat split; [exact Hc|].
    now apply positive_discount_valid in Hpos.
  - left. unfold create in H.
    unfold bind at 1, Order_objects_create, bind at 1, Order_save, ret at 1
      in H.
    unfold bind at 1 in H.
    match type of H with
    | context [create_items ?ord ?its ?acc ?d] =>
        destruct (create_items ord its acc d) as [[sub|e'] db1] eqn:Hitems
    end.
    + exfalso. revert H. unfold bind at 1.
      destruct (coupon_code data) as [[|a k]|];
        try (unfold ret, bind, Order_save; discriminate).
      unfold except_DoesNotExist, bind at 1, Coupon_objects_get.
      destruct (coupons db1 !! String a k) as [c|];
        [|unfold ret, bind, Order_save; discriminate].
      destruct (calculate_discount now sub c) as [d c'].
      destruct (d >? Decimal.of_int 0)%dec;
        unfold ret, bind, Order_save, Coupon_save, CouponUsage_objects_create;
        discriminate.
    + injection H as <- <-.
      now apply create_items_frame in Hitems as (_ & _ & Hc & _).
Qed.



Lemma filter_none {A} (P : A -> Prop) `{forall x, Decision (P x)}
    (l : list A) :
  Forall (fun x => ~ P x) l -> filter P l = [].
Proof.
  induction 1 as [|x l Hx _ IH]; [reflexivity|].
  now rewrite filter_cons_False.
Qed.

Lemma filter_all {A} (P : A -> Prop) `{forall x, Decision (P x)}
    (l : list A) :
  Forall P l -> filter P l = l.
Proof.
  induction 1 as [|x l Hx _ IH]; [reflexivity|].
  rewrite filter_cons_True by exact Hx. now rewrite IH.
Qed.

Lemma value_fold_add (l : list (ItemData * Decimal)) (id : UUID) :
  forall acc,
    Decimal.value
      (fold_left Decimal.add (map total_price (new_order_items id l)) acc)
    == Decimal.value acc + line_sum l.
Proof.
  induction l as [|ip rest IH]; intros acc.
  - cbn. ring.
  - cbn [new_order_items map fold_left line_sum fold_right total_price].
    change (map _ rest) with (new_order_items id rest).
    change (fold_right _ 0 rest) with (line_sum rest).
    rewrite IH, value_add, value_mul, value_of_int. ring.
Qed.



(** X8: a maximum discount that is set and positive is never exceeded,
    whatever the coupon type, the order amount or the validity. *)
Theorem calculate_discount_within_cap (c : Coupon) (now : datetime)
    (order_amount m : Decimal) :
  maximum_discount_amount c = Some m ->
  0 < Decimal.value m ->
  Decimal.value (fst (calculate_discount now order_amount c))
  <= Decimal.value m.
Proof.
  intros Hm Hpos. rewrite calculate_discount_eq. cbn [fst].
  destruct (negb (fst (is_valid now c)));
    [rewrite value_zero; now apply Qlt_le_weak|].
  destruct (match minimum_order_amount c with
            | Some m => Decimal.truthy m && (order_amount <? m)%dec
            | None => false
            end); [rewrite value_zero; now apply Qlt_le_weak|].
  cbv zeta. rewrite Hm.
  assert (Decimal.truthy m = true) as ->.
  { destruct (Decimal.truthy m) eqn:Ht; [reflexivity|].
    apply truthy_value in Ht. rewrite Ht in Hpos.
    now apply Qlt_irrefl in Hpos. }
  rewrite !value_min.
  eapply Qle_trans; [apply Q.le_min_l|apply Q.le_min_r].
Qed.

Lemma calculate_discount_within_cap_witness :
  Decimal.value
    (fst (calculate_discount 10%Z (D 10000 (-2))
            (set_maximum_discount_amount (Some (D 1000 (-2)))
               zero_cap_coupon)))
  <= Decimal.value (D 1000 (-2)).
Proof.
  apply calculate_discount_within_cap; [reflexivity|reflexivity].
Defined.

(** X9: the discount is not negative when the order amount, the coupon's
    [discount_value] and its maximum (when set) are not negative. *)
Theorem calculate_discount_nonneg (c : Coupon) (now : datetime)
    (order_amount : Decimal) :
  0 <= Decimal.value order_amount ->
  0 <= Decimal.value (discount_value c) ->
  (forall m, maximum_discount_amount c = Some m -> 0 <= Decimal.value m) ->
  0 <= Decimal.value (fst (calculate_discount now order_amount c)).
Proof.
  intros Hamount Hvalue Hmax. rewrite calculate_discount_eq. cbn [fst].
  destruct (negb (fst (is_valid now c)));
    [rewrite value_zero; apply Qle_refl|].
  destruct (match minimum_order_amount c with
            | Some m => Decimal.truthy m && (order_amount <? m)%dec
            | None => false
            end); [rewrite value_zero; apply Qle_refl|].
  cbv zeta. rewrite value_min. apply Q.min_glb; [|exact Hamount].
  assert (0 <= Decimal.value
                 (if String.eqb (discount_type c) "percentage"
                  then (order_amount * Decimal.div100 (discount_value c))%dec
                  else discount_value c)) as Hraw.
  { destruct (String.eqb (discount_type c) "percentage"); [|exact Hvalue].
    rewrite value_mul, value_div100.
    apply Qmult_le_0_compat; [exact Hamount|].
    apply Qle_shift_div_l; [reflexivity|]. now rewrite Qmult_0_l. }
  destruct (maximum_discount_amount c) as [m|]; [|exact Hraw].
  destruct (Decimal.truthy m); [|exact Hraw].
  rewrite value_min. apply Q.min_glb; [exact Hraw|now apply Hmax].
Qed.

Lemma calculate_discount_nonneg_witness :
  0 <= Decimal.value
         (fst (calculate_discount 10%Z (D 3333 (-2)) ten_percent_coupon)).
Proof.
  apply calculate_discount_nonneg; [discriminate|discriminate|].
  intros m. discriminate.
Defined.

End CheckoutFurther.

(** ** The status actions *)

Lemma validate_status_Ok (order : Order) (value v : string) :
  validate_status (Some order) value = Ok v ->
  v = value /\ Transition (status order) value.
Proof.
  unfold validate_status.
  destruct (existsb _ _) eqn:Hallowed; cbn [negb]; [|discriminate].
  intros [= <-]. split; [reflexivity|].
  now apply allowed_iff_Transition.
Qed.

Lemma validate_status_allowed (order : Order) (value : string) :
  Transition (status order) value ->
  validate_status (Some order) value = Ok value.
Proof.
  intros H. apply allowed_iff_Transition in H.
  unfold validate_status. now rewrite H.
Qed.

Lemma validate_status_refused (order : Order) (value : string) :
  ~ Transition (status order) value ->
  exists detail,
    validate_status (Some order) value = Raise (ValidationError detail).
Proof.
  intros H. unfold validate_status.
  destruct (existsb _ _) eqn:Hallowed; cbn [negb]; [|eauto].
  now apply allowed_iff_Transition in Hallowed.
Qed.

Lemma Transition_rank (a b : string) :
  Transition a b -> (status_rank a < status_rank b <= 5)%nat.
Proof. destruct 1; cbn; lia. Qed.

Lemma Transition_choices (a b : string) :
  Transition a b -> In a STATUS_CHOICES /\ In b STATUS_CHOICES.
Proof. destruct 1; cbn; tauto. Qed.

(** X10: an order whose stored status is none of the seven known ones
    can not be moved at all: every requested status is refused; and the
    terminal statuses [cancelled] and [refunded] are dead ends although
    they are known. *)
Theorem validate_status_unknown_current (order : Order) (value : string) :
  ~ In (status order) ["pending"; "confirmed"; "processing"; "shipped";
                       "delivered"] ->
  exists detail,
    validate_status (Some order) value = Raise (ValidationError detail).
Proof.
  intros Hunknown. apply validate_status_refused.
  intros H. apply Hunknown. destruct H; cbn; tauto.
Qed.

Lemma validate_status_unknown_current_witness :
  exists detail,
    validate_status (Some (set_status "on_hold" sample_order)) "confirmed"
    = Raise (ValidationError detail).
Proof.
  apply validate_status_unknown_current. cbn.
  intros [H|[H|[H|[H|[H|[]]]]]]; discriminate.
Defined.

Lemma update_status_200 (now : datetime) (data : StatusUpdateData)
    (row row' : OrderRow) :
  update_status now data row = (Response 200, row') ->
  exists value,
    update_status_value data = Some value
    /\ Transition (status (row_order row)) value
    /\ row_order row' = set_status value (row_order row).
Proof.
  unfold update_status, status_update_is_valid.
  destruct (update_status_value data) as [value|]; [|discriminate].
  destruct (validate_status (Some (row_order row)) value) as [v|e] eqn:Hv;
    [|rewrite andb_false_r; discriminate].
  apply validate_status_Ok in Hv as [_ Ht].
  destruct (existsb (String.eqb value) STATUS_CHOICES); cbn [andb];
    [|discriminate].
  intros H. exists value. split; [reflexivity|]. split; [exact Ht|].
  revert H. repeat case_match; now intros [= <-].
Qed.

Lemma update_status_refused (now : datetime) (data : StatusUpdateData)
    (row : OrderRow) :
  fst (update_status now data row) <> Response 200 ->
  snd (update_status now data row) = row.
Proof.
  unfold update_status.
  destruct (status_update_is_valid (row_order row) data); [|reflexivity].
  destruct (update_status_value data); [|reflexivity].
  cbn [fst]. congruence.
Qed.

(** X11: a status update that is not answered with [200] leaves the row as
    it was, and a time stamp that is already set is never replaced, by
    [update_status] or by [cancel]. *)
Theorem status_actions_keep_stamps (now : datetime) (data : StatusUpdateData)
    (row : OrderRow) :
  (fst (update_status now data row) <> Response 200 ->
   snd (update_status now data row) = row)
  /\ (fst (cancel row) <> Response 200 -> snd (cancel row) = row)
  /\ (forall t, confirmed_at row = Some t ->
                confirmed_at (snd (update_status now data row)) = Some t
                /\ confirmed_at (snd (cancel row)) = Some t)
  /\ (forall t, shipped_at row = Some t ->
                shipped_at (snd (update_status now data row)) = Some t
                /\ shipped_at (snd (cancel row)) = Some t)
  /\ (forall t, delivered_at row = Some t ->
                delivered_at (snd (update_status now data row)) = Some t
                /\ delivered_at (snd (cancel row)) = Some t).
Proof.
  split; [apply update_status_refused|].
  unfold update_status, cancel.
  split; [|split; [|split]].
  - destruct (negb _); [reflexivity|]. cbn [fst]. congruence.
  - intros t Ht. split; [|now destruct (negb _)].
    destruct (status_update_is_valid (row_order row) data); [|exact Ht].
    destruct (update_status_value data) as [v|]; [|exact Ht].
    rewrite Ht. cbn [snd].
    rewrite bool_decide_eq_true_2 by eauto.
    rewrite andb_false_r. repeat case_match; first [reflexivity|exact Ht].
  - intros t Ht. split; [|now destruct (negb _)].
    destruct (status_update_is_valid (row_order row) data); [|exact Ht].
    destruct (update_status_value data) as [v|]; [|exact Ht].
    rewrite Ht. cbn [snd].
    rewrite (bool_decide_eq_true_2 (is_Some (Some t))) by eauto.
    rewrite andb_false_r. repeat case_match; first [reflexivity|exact Ht].
  - intros t Ht. split; [|now destruct (negb _)].
    destruct (status_update_is_valid (row_order row) data); [|exact Ht].
    destruct (update_status_value data) as [v|]; [|exact Ht].
    rewrite Ht. cbn [snd].
    rewrite (bool_decide_eq_true_2 (is_Some (Some t))) by eauto.
    rewrite andb_false_r. repeat case_match; first [reflexivity|exact Ht].
Qed.

Lemma status_actions_keep_stamps_witness :
  confirmed_at
    (snd (update_status 20 (mkStatusUpdateData (Some "confirmed") None)
            (mkOrderRow sample_order None (Some 5) None None)))
  = Some 5.
Proof.
  apply (status_actions_keep_stamps 20
           (mkStatusUpdateData (Some "confirmed") None)
           (mkOrderRow sample_order None (Some 5) None None)).
  reflexivity.
Defined.

(** X12: the status actions keep the time stamps in step with the status:
    if a row has a confirmation time whenever it is past [confirmed], a
    shipping time whenever it is past [shipped] and a delivery time
    whenever it is past [delivered], then so has the row after
    [update_status] and after [cancel]. *)
Theorem status_actions_keep_stamped (now : datetime) (data : StatusUpdateData)
    (row : OrderRow) :
  stamped row ->
  stamped (snd (update_status now data row)) /\ stamped (snd (cancel row)).
Proof.
  intros (Hc & Hs & Hd). split.
  - destruct (update_status now data row) as [[code|key] row'] eqn:Hu;
      [destruct (decide (code = 200)) as [->|Hne]|].
    + destruct (update_status_200 _ _ _ _ Hu) as (value & Hv & Ht & Ho).
      cbn [snd]. revert Hu. unfold update_status.
      destruct (status_update_is_valid (row_order row) data);
        [|discriminate].
      rewrite Hv. clear Hv Ho.
      remember (status (row_order row)) as s eqn:Hst.
      destruct Ht; cbn [String.eqb Ascii.eqb Bool.eqb andb];
        repeat case_bool_decide; cbn [negb andb];
        intros [= <-]; unfold stamped;
        cbn [row_order set_status status confirmed_at shipped_at
               delivered_at In] in *.
      all: repeat split; intros; eauto.
      all: try (intuition discriminate).
    + pose proof (update_status_refused now data row) as Hsame.
      rewrite Hu in Hsame. cbn [fst snd] in *.
      rewrite Hsame by congruence. now repeat split.
    + pose proof (update_status_refused now data row) as Hsame.
      rewrite Hu in Hsame. cbn [fst snd] in *.
      rewrite Hsame by congruence. now repeat split.
  - unfold cancel. destruct (negb _); [now repeat split|].
    unfold stamped.
    cbn [snd row_order set_status status confirmed_at shipped_at delivered_at
           In].
    repeat split; intros; intuition discriminate.
Qed.

Lemma status_actions_keep_stamped_witness :
  stamped
    (snd (update_status 20 (mkStatusUpdateData (Some "confirmed") None)
            (mkOrderRow sample_order None None None None))).
Proof.
  apply (status_actions_keep_stamped 20
           (mkStatusUpdateData (Some "confirmed") None)
           (mkOrderRow sample_order None None None None)).
  unfold stamped. cbn. repeat split; intros H; intuition discriminate.
Defined.

(** X13: the life cycle is finite: a run of status updates that are all
    accepted moves the order strictly forward, so it has at most five
    steps, and fewer the further along the order already is. *)
Theorem update_status_run_bounded (now : datetime)
    (updates : list StatusUpdateData) :
  forall row row',
    update_status_run now updates row = Some row' ->
    (status_rank (status (row_order row)) + length updates
     <= status_rank (status (row_order row')) <= 5)%nat.
Proof.
  induction updates as [|data rest IH]; intros row row' H.
  - injection H as <-. cbn [length]. split; [lia|].
    unfold status_rank. repeat case_match; lia.
  - cbn [update_status_run] in H.
    destruct (update_status now data row) as [[code|key] row1] eqn:Hu;
      [|discriminate].
    destruct code as [|[p|p|]|]; try discriminate.
    repeat (destruct p as [p|p|]; try discriminate).
    destruct (update_status_200 _ _ _ _ Hu) as (value & _ & Ht & Ho).
    apply IH in H. rewrite Ho in H. cbn [set_status status] in H.
    apply Transition_rank in Ht. cbn [length]. lia.
Qed.

Lemma update_status_run_bounded_witness :
  (status_rank "pending" + 2 <= status_rank "processing" <= 5)%nat.
Proof.
  apply (update_status_run_bounded 20
           [mkStatusUpdateData (Some "confirmed") None;
            mkStatusUpdateData (Some "processing") (Some "packed")]
           (mkOrderRow sample_order None None None None)
           (mkOrderRow (set_status "processing" sample_order) (Some "packed")
              (Some 20) None None)).
  reflexivity.
Defined.

(** X14: the customer's [cancel] never does what the validator of the
    admin's [update_status] would refuse: it answers [200] exactly for
    pending and confirmed orders, which the transition table lets become
    [cancelled]; the cancelled order can then neither be cancelled again
    nor moved anywhere.  The converse fails: a [processing] order may be
    cancelled through [update_status] but not through [cancel]. *)
Theorem cancel_within_transitions (row : OrderRow) (value : string) :
  (fst (cancel row) = Response 200
   <-> In (status (row_order row)) ["pending"; "confirmed"])
  /\ (fst (cancel row) = Response 200 ->
      Transition (status (row_order row)) "cancelled"
      /\ status (row_order (snd (cancel row))) = "cancelled"
      /\ fst (cancel (snd (cancel row))) = Response 400
      /\ exists detail,
           validate_status (Some (row_order (snd (cancel row)))) value
           = Raise (ValidationError detail))
  /\ (status (row_order row) = "processing" ->
      fst (cancel row) = Response 400
      /\ validate_status (Some (row_order row)) "cancelled" = Ok "cancelled").
Proof.
  assert (fst (cancel row) = Response 200
          <-> In (status (row_order row)) ["pending"; "confirmed"]) as Hiff.
  { unfold cancel, can_be_cancelled, mbind, attr, mret. cbn [fst existsb In].
    rewrite orb_false_r.
    destruct (String.eqb_spec (status (row_order row)) "pending") as [->|H1];
      [cbn; tauto|].
    destruct (String.eqb_spec (status (row_order row)) "confirmed")
      as [->|H2]; [cbn; tauto|].
    cbn. split; [discriminate|]. intros [H|[H|[]]]; congruence. }
  split; [exact Hiff|]. split.
  - intros H. apply Hiff in H. cbn [In] in H.
    assert (fst (can_be_cancelled (row_order row)) = true) as Hc.
    { unfold can_be_cancelled, mbind, attr, mret.
      destruct H as [<-|[<-|[]]]; reflexivity. }
    split; [destruct H as [<-|[<-|[]]]; constructor|].
    assert (snd (cancel row)
            = mkOrderRow (set_status "cancelled" (row_order row))
                (internal_notes row) (confirmed_at row) (shipped_at row)
                (delivered_at row)) as ->.
    { unfold cancel. now rewrite Hc. }
    cbn [row_order set_status status]. split; [reflexivity|].
    split; [reflexivity|].
    apply validate_status_refused. cbn [set_status status].
    intros Ht. inversion Ht.
  - intros Hp. split.
    + unfold cancel, can_be_cancelled, mbind, attr, mret. rewrite Hp.
      reflexivity.
    + apply validate_status_allowed. rewrite Hp. constructor.
Qed.

Lemma cancel_within_transitions_witness :
  Transition (status sample_order) "cancelled".
Proof.
  apply (cancel_within_transitions
           (mkOrderRow sample_order None None None None) "confirmed").
  reflexivity.
Defined.

(** ** Business days *)

Lemma weekday_range (d : date) : 0 <= weekday d < 7.
Proof. unfold weekday. Z.div_mod_to_equations. lia. Qed.

(** More fuel does not change a result. *)
Lemma business_days_loop_fuel (fuel : nat) (n : Z) :
  forall extra current added r,
    business_days_loop fuel n current added = Some r ->
    business_days_loop (fuel + extra) n current added = Some r.
Proof.
  induction fuel as [|fuel IH]; intros extra current added r H;
    [discriminate|].
  cbn [business_days_loop Nat.add] in *.
  destruct (added <? n); [|exact H].
  destruct (MAXORDINAL <? current + 1); [exact H|].
  destruct (weekday (current + 1) <? 5); now apply IH.
Qed.

(** Three passes per business day still to add, two more for a weekend
    ahead and one to leave the loop are enough. *)
Lemma business_days_loop_terminates (n : Z) :
  forall (fuel : nat) current added,
    3 * Z.max (n - added) 0
    + (if weekday current =? 4 then 2 else if weekday current =? 5 then 1
       else 0)
    + 1 <= Z.of_nat fuel ->
    is_Some (business_days_loop fuel n current added).
Proof.
  induction fuel as [|fuel IH]; intros current added Hfuel.
  - repeat case_match; lia.
  - cbn [business_days_loop].
    destruct (Z.ltb_spec added n) as [Hlt|Hge]; [|eauto].
    destruct (MAXORDINAL <? current + 1); [eauto|].
    destruct (Z.ltb_spec (weekday (current + 1)) 5) as [Hw|Hw];
      apply IH; revert Hfuel Hw; unfold weekday;
      repeat (match goal with
              | |- context [?a =? ?b] => destruct (Z.eqb_spec a b)
              end);
      intros; Z.div_mod_to_equations; lia.
Qed.

Lemma business_days_after_0 (d : date) : business_days_after d 0 = 0%nat.
Proof. reflexivity. Qed.

Lemma business_days_after_S (d : date) (k : nat) :
  business_days_after d (S k)
  = Nat.add (if decide (weekday (d + 1) < 5) then 1%nat else 0%nat)
      (business_days_after (d + 1) k).
Proof.
  unfold business_days_after.
  rewrite seqZ_cons by lia.
  replace (Z.pred (Z.of_nat (S k))) with (Z.of_nat k) by lia.
  replace (Z.succ (d + 1)) with (d + 1 + 1) by lia.
  rewrite filter_cons. now destruct (decide (weekday (d + 1) < 5)).
Qed.

(** What the loop returns: the day on which the business days still to
    add have all been met. *)
Lemma business_days_loop_correct (n : Z) :
  forall (fuel : nat) current added d,
    business_days_loop fuel n current added = Some (ReturnDate d) ->
    exists k : nat,
      d = current + Z.of_nat k
      /\ Z.of_nat (business_days_after current k) = Z.max (n - added) 0
      /\ (n <= added -> k = 0%nat)
      /\ (added < n -> weekday d < 5 /\ d <= MAXORDINAL).
Proof.
  induction fuel as [|fuel IH]; intros current added d H; [discriminate|].
  cbn [business_days_loop] in H.
  destruct (Z.ltb_spec added n) as [Hlt|Hge].
  - destruct (Z.ltb_spec MAXORDINAL (current + 1)) as [|Hmax];
      [discriminate|].
    destruct (Z.ltb_spec (weekday (current + 1)) 5) as [Hw|Hw];
      apply IH in H as (k & -> & Hcount & Hzero & Hday);
      exists (S k); rewrite business_days_after_S;
      destruct (decide (weekday (current + 1) < 5)); try (exfalso; lia).
    + split; [lia|]. split; [lia|]. split; [lia|]. intros _.
      destruct (Z.lt_ge_cases (added + 1) n) as [Hmore|Hdone].
      * replace (current + Z.of_nat (S k)) with (current + 1 + Z.of_nat k)
          by lia.
        now apply Hday.
      * rewrite (Hzero Hdone). split; [|lia].
        match goal with
        | |- weekday ?x < 5 => now replace x with (current + 1) by lia
        end.
    + split; [lia|]. split; [lia|]. split; [lia|]. intros _.
      replace (current + Z.of_nat (S k)) with (current + 1 + Z.of_nat k)
        by lia.
      now apply Hday.
  - injection H as <-. exists 0%nat.
    rewrite business_days_after_0.
    split; [lia|]. split; [lia|]. split; [reflexivity|lia].
Qed.

(** X15: the loop of [calculate_business_days] ends: three passes per
    business day and three more always suffice, after which more passes
    change nothing; a count that is zero or negative returns the start
    date at once. *)
Theorem calculate_business_days_terminates (fuel : nat) (start_date : date)
    (business_days : Z) :
  3 * Z.max business_days 0 + 3 <= Z.of_nat fuel ->
  exists r,
    calculate_business_days fuel start_date business_days = Some r
    /\ (forall extra,
          calculate_business_days (fuel + extra) start_date business_days
          = Some r)
    /\ (business_days <= 0 -> r = ReturnDate start_date).
Proof.
  intros Hfuel. unfold calculate_business_days.
  destruct (business_days_loop_terminates business_days fuel start_date 0)
    as [r Hr].
  { rewrite Z.sub_0_r. repeat case_match; lia. }
  exists r. split; [exact Hr|]. split.
  - intros extra. now apply business_days_loop_fuel.
  - intros Hn. destruct fuel as [|fuel]; [discriminate|].
    cbn [business_days_loop] in Hr.
    destruct (Z.ltb_spec 0 business_days); [lia|]. congruence.
Qed.

Lemma calculate_business_days_terminates_witness :
  exists r, calculate_business_days 18 739000 5 = Some r.
Proof.
  destruct (calculate_business_days_terminates 18 739000 5) as (r & Hr & _);
    [cbn; lia|].
  exists r. exact Hr.
Defined.

(** X16: the date [calculate_business_days] returns is the start date
    moved forward by just enough days to contain the requested number of
    business days (Monday to Friday), and for a positive count it is
    itself a business day and not beyond [date.max]. *)
Theorem calculate_business_days_correct (fuel : nat) (start_date d : date)
    (business_days : Z) :
  calculate_business_days fuel start_date business_days
  = Some (ReturnDate d) ->
  exists k : nat,
    d = start_date + Z.of_nat k
    /\ Z.of_nat (business_days_after start_date k) = Z.max business_days 0
    /\ (0 < business_days -> weekday d < 5 /\ d <= MAXORDINAL).
Proof.
  intros H. apply business_days_loop_correct in H as (k & Hd & Hc & _ & Hw).
  exists k. rewrite Z.sub_0_r in Hc.
  split; [exact Hd|]. split; [exact Hc|]. intros Hn. apply Hw. lia.
Qed.

Lemma calculate_business_days_correct_witness :
  exists k : nat,
    739007 = 739000 + Z.of_nat k
    /\ Z.of_nat (business_days_after 739000 k) = Z.max 5 0.
Proof.
  destruct (calculate_business_days_correct 18 739000 739007 5)
    as (k & Hd & Hc & _); [reflexivity|].
  exists k. now split.
Defined.

Lemma business_days_loop_shift (fuel : nat) (n c : Z) :
  forall current added,
    business_days_loop fuel (n + c) current (added + c)
    = business_days_loop fuel n current added.
Proof.
  induction fuel as [|fuel IH]; intros current added; [reflexivity|].
  cbn [business_days_loop].
  replace (added + c <? n + c) with (added <? n)
    by (destruct (Z.ltb_spec added n), (Z.ltb_spec (added + c) (n + c)); lia).
  replace (added + c + 1) with (added + 1 + c) by lia.
  now rewrite !IH.
Qed.

Lemma business_days_loop_compose (a b : Z) (f2 : nat) (r : DateResult) :
  0 <= b ->
  forall (f1 : nat) current added d1,
    added <= a ->
    business_days_loop f1 a current added = Some (ReturnDate d1) ->
    business_days_loop f2 b d1 0 = Some r ->
    business_days_loop (f1 + f2) (a + b) current added = Some r.
Proof.
  intros Hb. induction f1 as [|f1 IH]; intros current added d1 Hle H1 H2;
    [discriminate|].
  cbn [business_days_loop] in H1.
  destruct (Z.ltb_spec added a) as [Hlt|Hge].
  - cbn [business_days_loop Nat.add].
    destruct (Z.ltb_spec added (a + b)); [|lia].
    destruct (MAXORDINAL <? current + 1); [discriminate|].
    destruct (weekday (current + 1) <? 5);
      eapply IH; eauto; lia.
  - injection H1 as <-. assert (added = a) as -> by lia.
    replace (S f1 + f2)%nat with (f2 + S f1)%nat by lia.
    apply business_days_loop_fuel.
    rewrite <- (business_days_loop_shift f2 b a current 0) in H2.
    now rewrite Z.add_comm.
Qed.

(** X17: business days add up: moving [a] business days on and then [b]
    more ends on the same date as moving [a + b] business days at once
    (an [OverflowError] of the second step included). *)
Theorem calculate_business_days_add (f1 f2 : nat) (start_date d1 : date)
    (a b : Z) (r : DateResult) :
  0 <= a -> 0 <= b ->
  calculate_business_days f1 start_date a = Some (ReturnDate d1) ->
  calculate_business_days f2 d1 b = Some r ->
  calculate_business_days (f1 + f2) start_date (a + b) = Some r.
Proof.
  intros Ha Hb H1 H2. unfold calculate_business_days in *.
  now apply (business_days_loop_compose a b f2 r Hb f1 start_date 0 d1).
Qed.

Lemma calculate_business_days_add_witness :
  calculate_business_days (9 + 9) 739000 (3 + 2) = Some (ReturnDate 739007).
Proof.
  apply (calculate_business_days_add 9 9 739000 739005 3 2); try lia;
    reflexivity.
Defined.

(** X18: counted from a business day, five business days are exactly one
    calendar week. *)
Theorem calculate_business_days_week (fuel : nat) (start_date : date) :
  weekday start_date < 5 ->
  start_date + 7 <= MAXORDINAL ->
  (8 <= fuel)%nat ->
  calculate_business_days fuel start_date 5
  = Some (ReturnDate (start_date + 7)).
Proof.
  intros Hw Hmax Hfuel.
  replace fuel with (8 + (fuel - 8))%nat by lia.
  apply business_days_loop_fuel.
  unfold MAXORDINAL in *.
  repeat (cbn [business_days_loop];
          match goal with
          | |- context [?x <? ?y] =>
              destruct (Z.ltb_spec x y);
              try (exfalso; unfold weekday, MAXORDINAL in *;
                   Z.div_mod_to_equations; lia)
          end).
  all: f_equal; f_equal; lia.
Qed.

Lemma calculate_business_days_week_witness :
  calculate_business_days 8 739000 5 = Some (ReturnDate (739000 + 7)).
Proof.
  apply calculate_business_days_week;
    [reflexivity|unfold MAXORDINAL; lia|lia].
Defined.

(** ** The cart and the order made from it *)

Section CartCheckout.

Local Open Scope Q_scope.

(** The price the checkout charges for a line is the price the cart
    showed for it. *)
Lemma get_price_unit_price (db : Db) (item : CartItem) (p : Decimal) :
  unit_price_in (products db) (variants db)
    (mkItemData (cart_product item) (cart_variant item) (cart_quantity item))
  = Some p ->
  get_price item db = (Ok p, db).
Proof.
  unfold unit_price_in, get_price. cbn [product_id variant_id].
  destruct (products db !! cart_product item) as [pr|] eqn:Hp; [|discriminate].
  destruct (cart_variant item) as [vid|].
  - unfold bind, CartItem_variant.
    destruct (variants db !! vid) as [v|]; [|discriminate].
    destruct (N.eqb_spec (variant_product v) (cart_product item)) as [He|];
      [|discriminate].
    intros [= <-]. unfold effective_price.
    destruct (variant_price v); [reflexivity|].
    unfold bind, Product_objects_get, ret. rewrite He, Hp. reflexivity.
  - intros [= <-]. unfold bind, Product_objects_get, ret. now rewrite Hp.
Qed.

Lemma Cart_total_amount_from_priced (db : Db) (cart_items : list CartItem) :
  forall (prices : list Decimal) (acc : Decimal),
    Forall2 (fun it p =>
               unit_price_in (products db) (variants db) it = Some p)
      (checkout_items cart_items) prices ->
    exists total,
      Cart_total_amount_from cart_items acc db = (Ok total, db)
      /\ Decimal.value total
         == Decimal.value acc
            + line_sum (zip (checkout_items cart_items) prices).
Proof.
  induction cart_items as [|item rest IH]; intros prices acc H.
  - exists acc. split; [reflexivity|]. cbn. ring.
  - cbn [checkout_items map] in H.
    apply Forall2_cons_inv_l in H as (p & prices' & Hp & Hrest & ->).
    apply get_price_unit_price in Hp.
    destruct (IH prices'
                (acc + Decimal.of_int (cart_quantity item) * p)%dec Hrest)
      as (total & Htotal & Hvalue).
    exists total. split.
    + cbn [Cart_total_amount_from]. unfold bind at 1. now rewrite Hp.
    + rewrite Hvalue, value_add, value_mul, value_of_int.
      cbn [checkout_items map zip zip_with line_sum fold_right fst snd
             item_quantity].
      change (fold_right _ 0 ?l) with (line_sum l).
      change (map _ rest) with (checkout_items rest). ring.
Qed.

(** The order lines of a new order are the lines the checkout wrote. *)
Lemma create_Order_items (now : datetime) (id : UUID) (data : ValidatedData)
    (db db' : Db) (o : Order) :
  Forall (fun it => item_order it <> id) (order_items db) ->
  create now id data db = (Ok o, db') ->
  exists prices,
    length prices = length (items data)
    /\ Order_items db' o = new_order_items id (zip (items data) prices).
Proof.
  intros Hfresh H.
  destruct (create_Ok_priced _ _ _ _ _ _ H) as (prices & Hprices & -> & ->).
  exists prices. split; [symmetry; exact (Forall2_length _ _ _ Hprices)|].
  unfold Order_items. cbn [checkout fst snd order_id order_items].
  rewrite filter_app, (filter_none _ _ Hfresh), app_nil_l.
  apply filter_all. unfold new_order_items.
  apply Forall_map, Forall_true. reflexivity.
Qed.



Lemma fold_left_Zadd (l : list Z) :
  forall a b, fold_left Z.add l (a + b)%Z = (a + fold_left Z.add l b)%Z.
Proof.
  induction l as [|x l IH]; intros a b; [reflexivity|].
  cbn [fold_left]. now rewrite <- Z.add_assoc, IH.
Qed.



End CartCheckout.

(** ** Phone and card numbers *)

Lemma sub_nondigits_digits (s : str) :
  Forall (fun c => isdigit c = true) (sub_nondigits s).
Proof.
  apply Forall_forall. intros c Hc.
  apply list_elem_of_In, List.filter_In in Hc. apply Hc.
Qed.

Lemma sub_nondigits_all (s : str) :
  Forall (fun c => isdigit c = true) s -> sub_nondigits s = s.
Proof.
  induction 1 as [|c s Hc _ IH]; [reflexivity|].
  unfold sub_nondigits in *. cbn [List.filter]. now rewrite Hc, IH.
Qed.

Lemma sub_nondigits_app (s1 s2 : str) :
  sub_nondigits (s1 ++ s2)%list
  = (sub_nondigits s1 ++ sub_nondigits s2)%list.
Proof. apply List.filter_app. Qed.

Lemma sub_nondigits_slice (i j : nat) (s : str) :
  sub_nondigits (slice i j (sub_nondigits s)) = slice i j (sub_nondigits s).
Proof.
  apply sub_nondigits_all, Forall_take, Forall_drop, sub_nondigits_digits.
Qed.

Lemma sub_nondigits_drop (i : nat) (s : str) :
  sub_nondigits (drop i (sub_nondigits s)) = drop i (sub_nondigits s).
Proof. apply sub_nondigits_all, Forall_drop, sub_nondigits_digits. Qed.

(** Formatting keeps the digits of a phone number. *)
Lemma sub_nondigits_format_phone_number (phone : str) :
  sub_nondigits (format_phone_number phone) = sub_nondigits phone.
Proof.
  unfold format_phone_number.
  destruct (Nat.eqb_spec (length (sub_nondigits phone)) 10) as [H10|_].
  - rewrite !sub_nondigits_app, !sub_nondigits_slice.
    unfold slice_from. rewrite sub_nondigits_drop.
    change (sub_nondigits (lit "(")) with (@nil Ascii.ascii).
    change (sub_nondigits (lit ") ")) with (@nil Ascii.ascii).
    change (sub_nondigits (lit "-")) with (@nil Ascii.ascii).
    unfold slice. cbn [app Nat.sub skipn].
    rewrite <- (take_drop 3 (sub_nondigits phone)) at 4.
    f_equal.
    rewrite <- (take_drop 3 (drop 3 (sub_nondigits phone))) at 2.
    now rewrite drop_drop.
  - destruct (Nat.eqb_spec (length (sub_nondigits phone)) 11) as [H11|_];
      [|reflexivity].
    cbn [andb].
    destruct (startswith (sub_nondigits phone) (lit "1")) eqn:H1;
      [|reflexivity].
    rewrite !sub_nondigits_app, !sub_nondigits_slice.
    unfold slice_from. rewrite sub_nondigits_drop.
    change (sub_nondigits (lit "+1 (")) with (lit "1").
    change (sub_nondigits (lit ") ")) with (@nil Ascii.ascii).
    change (sub_nondigits (lit "-")) with (@nil Ascii.ascii).
    destruct (sub_nondigits phone) as [|c d]; [discriminate|].
    cbn [startswith lit String.list_ascii_of_string] in H1.
    apply andb_true_iff in H1 as [H1 _]. apply Ascii.eqb_eq in H1 as ->.
    unfold slice.
    cbn [app Nat.sub skipn lit String.list_ascii_of_string].
    f_equal.
    rewrite <- (take_drop 3 d) at 4. f_equal.
    rewrite <- (take_drop 3 (drop 3 d)) at 2.
    now rewrite drop_drop.
Qed.

(** X21: [format_phone_number] changes the layout of a phone number and
    never its digits: the digits of the result are the digits of the
    argument, in order; and formatting a formatted number changes
    nothing. *)
Theorem format_phone_number_idempotent (phone : str) :
  sub_nondigits (format_phone_number phone) = sub_nondigits phone
  /\ format_phone_number (format_phone_number phone)
     = format_phone_number phone.
Proof.
  split; [apply sub_nondigits_format_phone_number|].
  unfold format_phone_number at 1.
  rewrite sub_nondigits_format_phone_number.
  unfold format_phone_number.
  destruct (length (sub_nondigits phone) =? 10)%nat; [reflexivity|].
  destruct ((length (sub_nondigits phone) =? 11)%nat
            && startswith (sub_nondigits phone) (lit "1")); reflexivity.
Qed.

Lemma sub_nondigits_mask (prefix card_number : str) :
  sub_nondigits prefix = [] ->
  sub_nondigits (prefix ++ slice_last 4 (sub_nondigits card_number))%list
  = slice_last 4 (sub_nondigits card_number).
Proof.
  intros Hp. rewrite sub_nondigits_app, Hp. unfold slice_last.
  now rewrite sub_nondigits_drop.
Qed.

(** X22: of a card number with 15 or 16 digits [mask_credit_card] shows
    the last four digits and no other: the digits of the result are
    exactly those four. Masking a masked number changes nothing. *)
Theorem mask_credit_card_last_four (card_number : str) :
  (length (sub_nondigits card_number) = 15%nat
   \/ length (sub_nondigits card_number) = 16%nat ->
   sub_nondigits (mask_credit_card card_number)
   = slice_last 4 (sub_nondigits card_number)
   /\ length (sub_nondigits (mask_credit_card card_number)) = 4%nat)
  /\ mask_credit_card (mask_credit_card card_number)
     = mask_credit_card card_number.
Proof.
  assert (forall n, length (sub_nondigits card_number) = n -> (4 <= n)%nat ->
            length (slice_last 4 (sub_nondigits card_number)) = 4%nat)
    as Hlen.
  { intros n Hn Hle. unfold slice_last. rewrite length_drop. lia. }
  split.
  - intros Hd. unfold mask_credit_card.
    destruct Hd as [Hd|Hd]; rewrite Hd; cbn [Nat.ltb Nat.leb Nat.eqb];
      (rewrite sub_nondigits_mask by reflexivity);
      (split; [reflexivity|]); apply (Hlen _ Hd); lia.
  - unfold mask_credit_card at 2 3.
    destruct (length (sub_nondigits card_number) <? 4)%nat eqn:E4;
      [unfold mask_credit_card; now rewrite E4|].
    destruct (length (sub_nondigits card_number) =? 16)%nat eqn:E16.
    { apply Nat.eqb_eq in E16. unfold mask_credit_card.
      rewrite sub_nondigits_mask by reflexivity.
      rewrite (Hlen _ E16) by lia. reflexivity. }
    destruct (length (sub_nondigits card_number) =? 15)%nat eqn:E15.
    { apply Nat.eqb_eq in E15. unfold mask_credit_card.
      rewrite sub_nondigits_mask by reflexivity.
      rewrite (Hlen _ E15) by lia. reflexivity. }
    unfold mask_credit_card. now rewrite E4, E16, E15.
Qed.

Lemma mask_credit_card_last_four_witness :
  sub_nondigits (mask_credit_card (lit "4111 1111 1111 1234")) = lit "1234".
Proof.
  destruct (mask_credit_card_last_four (lit "4111 1111 1111 1234"))
    as [H _].
  destruct H as [H _]; [right; reflexivity|].
  rewrite H. reflexivity.
Defined.

(** ** Orders from validated items *)

Lemma Order_item_count_lower (lines : list OrderItem) :
  Forall (fun l => 0 < quantity l) lines ->
  Z.of_nat (length lines) <= Order_item_count lines.
Proof.
  unfold Order_item_count. induction 1 as [|l lines Hl _ IH]; [reflexivity|].
  cbn [map fold_left length].
  rewrite (Z.add_comm 0), fold_left_Zadd. lia.
Qed.

(** X23: an order made from items that passed [validate_items] and
    [validate_quantity] is never empty: it has at least one line, every
    line has a positive quantity, and [Order.item_count] is at least the
    number of lines. *)
Theorem validated_order_has_items (now : datetime) (id : UUID)
    (data : ValidatedData) (db db' : Db) (o : Order) :
  validate_items (items data) = Ok (items data) ->
  Forall (fun it =>
            validate_quantity (item_quantity it) = Ok (item_quantity it))
    (items data) ->
  Forall (fun it => item_order it <> id) (order_items db) ->
  create now id data db = (Ok o, db') ->
  Order_items db' o <> []
  /\ Forall (fun l => 0 < quantity l) (Order_items db' o)
  /\ 0 < Z.of_nat (length (Order_items db' o))
      <= Order_item_count (Order_items db' o).
Proof.
  intros Hitems Hq Hfresh H.
  destruct (create_Order_items _ _ _ _ _ _ Hfresh H) as (prices & Hlen & ->).
  assert (Forall (fun l => 0 < quantity l)
            (new_order_items id (zip (items data) prices))) as Hpos.
  { unfold new_order_items. apply Forall_map.
    apply Forall_forall. intros [it p] Hin. cbn [fst snd quantity].
    apply elem_of_zip_l in Hin. cbn [fst] in Hin.
    rewrite Forall_forall in Hq. specialize (Hq _ Hin).
    unfold validate_quantity in Hq.
    destruct (Z.leb_spec (item_quantity it) 0); [discriminate|lia]. }
  assert (length (new_order_items id (zip (items data) prices))
          = length (items data)) as Hl.
  { unfold new_order_items. rewrite length_map, length_zip. lia. }
  assert (0 < length (items data))%nat as Hne.
  { destruct (items data); [discriminate|cbn; lia]. }
  split; [|split; [exact Hpos|split]].
  - intros Hnil. rewrite Hnil in Hl. cbn in Hl. lia.
  - lia.
  - now apply Order_item_count_lower.
Qed.

Lemma validated_order_has_items_witness :
  exists o db',
    create 10%Z 7%N sample_data sample_db = (Ok o, db')
    /\ Order_items db' o <> [].
Proof.
  pose proof (create_priced 10%Z 7%N sample_data sample_db [D 2500 (-2)])
    as Hc.
  assert (Forall2
            (fun it p =>
               unit_price_in (products sample_db) (variants sample_db) it
               = Some p)
            (items sample_data) [D 2500 (-2)]) as Hp.
  { repeat constructor. }
  specialize (Hc Hp).
  eexists _, _. split; [exact Hc|].
  apply (validated_order_has_items 10%Z 7%N sample_data sample_db _ _);
    [reflexivity|repeat constructor|constructor|exact Hc].
Defined.
